(** * Column reconciliation of ayni_fe

    A shallow embedding of the column-mapping logic of the upload wizard:

    - [src/types/columnSchema.ts]: the schema registry ([COLUMN_SCHEMA],
      [getRequiredColumns], [getOptionalColumns], [getInferableColumns]) and
      the validator ([validateMappings]);
    - [src/components/Upload/ColumnMapping.tsx]: the suggestion resolver
      ([suggestMapping]), the mapping state of the component (its [useState]
      initializer and the auto-suggest effect), [handleMappingChange],
      [isSystemColumnMapped], [getMappedCsvColumn], the remove button and the
      notification effect; the options of the selects and [toggleSection];
    - [src/pages/Auth]: [getPasswordStrength] and the schemas of the
      register, change-password and login forms;
    - [src/store/authStore.ts]: the actions of the authentication store;
    - [src/lib/api/auth.ts]: [extractErrorMessage].

    Header names are JavaScript strings.  They are modelled as [string], a
    character being a code unit below 256 (the ISO-8859-1 range), on which
    [toLowerCase] and the class [\s] of regular expressions are written out
    exactly; what is proved of them is proved of these strings. Module
    [Utf16] has the strings of arbitrary code units, surrogate pairs
    included, for the part of the Unicode case table it lists. *)

From Stdlib Require Import List String Ascii Bool Arith NArith Lia DecimalString.
Import ListNotations.
Open Scope string_scope.
Open Scope nat_scope.

(** ** Schema registry (columnSchema.ts) *)

Module Schema.

(** [ColumnSpec.dtype] *)
Inductive DType := datetime64_ns | object | float64.

(** [interface ColumnSpec]; [optional] and [inferable] are the literals 0 and 1 *)
Record ColumnSpec := mkSpec {
  optional : nat;
  inferable : nat;
  description : string;
  dtype : DType
}.

(** [type SystemColumn] *)
Inductive SystemColumn :=
  | in_dt
  | in_trans_id
  | in_product_id
  | in_quantity
  | in_price_total
  | in_trans_type
  | in_customer_id
  | in_description
  | in_category
  | in_unit_type
  | in_stock
  | in_cost_unit
  | in_cost_total
  | in_price_unit
  | in_discount_total
  | in_commission_total
  | in_margin.

Definition SystemColumn_eqb (a b : SystemColumn) : bool :=
  match a, b with
  | in_dt, in_dt | in_trans_id, in_trans_id | in_product_id, in_product_id
  | in_quantity, in_quantity | in_price_total, in_price_total
  | in_trans_type, in_trans_type | in_customer_id, in_customer_id
  | in_description, in_description | in_category, in_category
  | in_unit_type, in_unit_type | in_stock, in_stock
  | in_cost_unit, in_cost_unit | in_cost_total, in_cost_total
  | in_price_unit, in_price_unit | in_discount_total, in_discount_total
  | in_commission_total, in_commission_total | in_margin, in_margin => true
  | _, _ => false
  end.

(** [COLUMN_SCHEMA], an object literal: its entries in insertion order, which
    is the order [Object.entries] enumerates them in. *)
Definition COLUMN_SCHEMA : list (SystemColumn * ColumnSpec) :=
  [ (in_dt, mkSpec 0 0 "Transaction datetime" datetime64_ns);
    (in_trans_id, mkSpec 0 0 "Unique transaction identifier" object);
    (in_product_id, mkSpec 0 0 "Product identifier" object);
    (in_quantity, mkSpec 0 0 "Quantity of items in transaction" float64);
    (in_price_total, mkSpec 0 0 "Total price/revenue for transaction" float64);
    (in_trans_type, mkSpec 1 0 "Transaction type (sale, return, etc.)" object);
    (in_customer_id, mkSpec 1 0 "Customer identifier" object);
    (in_description, mkSpec 1 0 "Product description" object);
    (in_category, mkSpec 1 0 "Product category" object);
    (in_unit_type, mkSpec 1 0 "Unit of measure (kg, unit, liter, etc.)" object);
    (in_stock, mkSpec 1 0 "Current stock level" float64);
    (in_cost_unit,
      mkSpec 1 1 "Cost per unit (can be inferred from cost_total/quantity)" float64);
    (in_cost_total,
      mkSpec 1 1 "Total cost (can be inferred from cost_unit * quantity)" float64);
    (in_price_unit,
      mkSpec 1 1 "Price per unit (can be inferred from price_total/quantity)" float64);
    (in_discount_total, mkSpec 1 1 "Total discount amount (can be inferred)" float64);
    (in_commission_total,
      mkSpec 1 1 "Total commission amount (can be inferred)" float64);
    (in_margin,
      mkSpec 1 1 "Profit margin (can be inferred from price and cost)" float64) ].

(** [Object.entries(COLUMN_SCHEMA).filter(([_, spec]) => spec.optional === 0)
      .map(([col, _]) => col)] *)
Definition getRequiredColumns : list SystemColumn :=
  map fst (filter (fun e => optional (snd e) =? 0) COLUMN_SCHEMA).

Definition getOptionalColumns : list SystemColumn :=
  map fst (filter (fun e => optional (snd e) =? 1) COLUMN_SCHEMA).

Definition getInferableColumns : list SystemColumn :=
  map fst (filter (fun e => inferable (snd e) =? 1) COLUMN_SCHEMA).

End Schema.
Export Schema.

(** ** JavaScript strings on the code units below 256 *)

Module JsString.

(** [String.prototype.toLowerCase] on one code unit: A-Z, and the capital
    letters U+00C0-U+00DE of Latin-1 except the multiplication sign U+00D7,
    move 32 places up; every other code unit below 256 is its own lower case. *)
Definition isUpperCase (n : nat) : bool :=
  ((65 <=? n) && (n <=? 90))
  || ((192 <=? n) && (n <=? 222) && negb (n =? 215)).

Definition toLowerCaseChar (c : ascii) : ascii :=
  let n := nat_of_ascii c in
  if isUpperCase n then ascii_of_nat (n + 32) else c.

Fixpoint toLowerCase (s : string) : string :=
  match s with
  | EmptyString => EmptyString
  | String c r => String (toLowerCaseChar c) (toLowerCase r)
  end.

(** The class [\s]: TAB, LF, VT, FF, CR, SPACE and NO-BREAK SPACE are its
    members below 256. *)
Definition isWhiteSpace (n : nat) : bool :=
  ((9 <=? n) && (n <=? 13)) || (n =? 32) || (n =? 160).

(** The character class of [/[_\s-]/g] *)
Definition isSeparator (c : ascii) : bool :=
  let n := nat_of_ascii c in
  (n =? 95) || isWhiteSpace n || (n =? 45).

(** [s.replace(/[_\s-]/g, '')] *)
Fixpoint removeSeparators (s : string) : string :=
  match s with
  | EmptyString => EmptyString
  | String c r =>
      if isSeparator c then removeSeparators r else String c (removeSeparators r)
  end.

(** Truthiness of a string: every string but the empty one *)
Definition truthy (s : string) : bool :=
  match s with EmptyString => false | String _ _ => true end.

End JsString.
Export JsString.

(** ** Suggestion resolver (ColumnMapping.tsx, [suggestMapping]) *)

Module Suggest.

(** What a property read [o[key]] on an object literal whose own values are
    system columns evaluates to: [undefined], an own value, or the member of
    that name which the literal inherits from [Object.prototype]. *)
Inductive PropertyValue :=
  | Undefined
  | Own (c : SystemColumn)
  | Inherited (name : string).

(** What the [systemColumn] field of a mapping holds at run time: [null], a
    system column, or a member of [Object.prototype] that a property read
    returned. The declared type is [SystemColumn | null]. *)
Inductive Target :=
  | Null
  | Col (c : SystemColumn)
  | ProtoMember (name : string).

(** The names [Object.prototype] defines; every one of them is bound to a
    function or an object, hence truthy. *)
Definition objectPrototypeMembers : list string :=
  [ "constructor"; "__defineGetter__"; "__defineSetter__"; "hasOwnProperty";
    "__lookupGetter__"; "__lookupSetter__"; "isPrototypeOf";
    "propertyIsEnumerable"; "toString"; "valueOf"; "__proto__";
    "toLocaleString" ].

Definition inb (k : string) (l : list string) : bool :=
  existsb (String.eqb k) l.

(** Own property of an object literal given by its entries *)
Fixpoint ownProperty (o : list (string * SystemColumn)) (key : string)
  : option SystemColumn :=
  match o with
  | [] => None
  | (k, v) :: r => if String.eqb k key then Some v else ownProperty r key
  end.

(** [o[key]]: the own property, else the one found on the prototype chain *)
Definition getProperty (o : list (string * SystemColumn)) (key : string)
  : PropertyValue :=
  match ownProperty o key with
  | Some c => Own c
  | None => if inb key objectPrototypeMembers then Inherited key else Undefined
  end.

(** [v || null]: a system column is a non-empty string and a prototype member
    is an object, both truthy; [undefined] is falsy. *)
Definition orNull (v : PropertyValue) : Target :=
  match v with
  | Undefined => Null
  | Own c => Col c
  | Inherited n => ProtoMember n
  end.

(** The literal [suggestions] *)
Definition suggestions : list (string * SystemColumn) :=
  [ ("date", in_dt);
    ("datetime", in_dt);
    ("fecha", in_dt);
    ("transactionid", in_trans_id);
    ("transid", in_trans_id);
    ("idtransaccion", in_trans_id);
    ("productid", in_product_id);
    ("producto", in_product_id);
    ("idproducto", in_product_id);
    ("quantity", in_quantity);
    ("cantidad", in_quantity);
    ("qty", in_quantity);
    ("price", in_price_total);
    ("pricetotal", in_price_total);
    ("total", in_price_total);
    ("precio", in_price_total);
    ("revenue", in_price_total);
    ("customer", in_customer_id);
    ("customerid", in_customer_id);
    ("cliente", in_customer_id);
    ("description", in_description);
    ("descripcion", in_description);
    ("category", in_category);
    ("categoria", in_category);
    ("cost", in_cost_total);
    ("costtotal", in_cost_total);
    ("costo", in_cost_total);
    ("stock", in_stock);
    ("inventory", in_stock);
    ("inventario", in_stock);
    ("margin", in_margin);
    ("margen", in_margin);
    ("discount", in_discount_total);
    ("descuento", in_discount_total) ].

(** [csvColumn.toLowerCase().replace(/[_\s-]/g, '')] *)
Definition normalize (csvColumn : string) : string :=
  removeSeparators (toLowerCase csvColumn).

(** [suggestMapping]: [return suggestions[normalized] || null] *)
Definition suggestMapping (csvColumn : string) : Target :=
  let normalized := normalize csvColumn in
  orNull (getProperty suggestions normalized).

End Suggest.
Export Suggest.

(** ** Validator (columnSchema.ts, [validateMappings]) *)

Module Validator.

(** [interface ColumnMapping] *)
Record ColumnMapping := mkMapping {
  csvColumn : string;
  systemColumn : Target
}.

(** [t !== null] *)
Definition notNull (t : Target) : bool :=
  match t with Null => false | _ => true end.

(** [t === col] for a system column [col]: only that very column is
    strictly equal to it. *)
Definition strictEq (t : Target) (col : SystemColumn) : bool :=
  match t with Col c => SystemColumn_eqb c col | _ => false end.

(** [l.includes(col)] *)
Definition includes (l : list Target) (col : SystemColumn) : bool :=
  existsb (fun t => strictEq t col) l.

Record ValidationResult := mkValidation {
  valid : bool;
  missingRequired : list SystemColumn
}.

Definition validateMappings (mappings : list ColumnMapping) : ValidationResult :=
  let requiredColumns := getRequiredColumns in
  let mappedSystemColumns :=
    map systemColumn (filter (fun m => notNull (systemColumn m)) mappings) in
  let missingRequired :=
    filter (fun col => negb (includes mappedSystemColumns col)) requiredColumns in
  {| valid := List.length missingRequired =? 0;
     missingRequired := missingRequired |}.

End Validator.
Export Validator.

(** ** Mapping state of the component (ColumnMapping.tsx) *)

Module Component.

(** The [useState] initializer; [initialMappings] is an optional prop, [None]
    when the caller leaves it out. *)
Definition initialState (csvColumns : list string)
    (initialMappings : option (list ColumnMapping)) : list ColumnMapping :=
  match initialMappings with
  | Some ((_ :: _) as given) => given
  | _ => map (fun col => mkMapping col Null) csvColumns
  end.

(** The auto-suggest effect, run on mount: [if (!initialMappings)] holds for
    a prop left out only, an array (even an empty one) being truthy. The
    result is the state after the effect. *)
Definition autoSuggest (csvColumns : list string)
    (initialMappings : option (list ColumnMapping))
    (mappings : list ColumnMapping) : list ColumnMapping :=
  match initialMappings with
  | None => map (fun col => mkMapping col (suggestMapping col)) csvColumns
  | Some _ => mappings
  end.

(** The mapping state once the component is mounted *)
Definition initialize (csvColumns : list string)
    (initialMappings : option (list ColumnMapping)) : list ColumnMapping :=
  autoSuggest csvColumns initialMappings (initialState csvColumns initialMappings).

(** [handleMappingChange]: the updater given to [setMappings],
    [prev.map(m => m.csvColumn === csvColumn ? { ...m, systemColumn } : m)] *)
Definition handleMappingChange (csv : string) (target : Target)
    (prev : list ColumnMapping) : list ColumnMapping :=
  map (fun m =>
         if String.eqb (csvColumn m) csv
         then mkMapping (csvColumn m) target
         else m) prev.

(** [isSystemColumnMapped]: [mappings.some(m => m.systemColumn === systemColumn)] *)
Definition isSystemColumnMapped (mappings : list ColumnMapping)
    (col : SystemColumn) : bool :=
  existsb (fun m => strictEq (systemColumn m) col) mappings.

(** [getMappedCsvColumn]: [mappings.find(...)?.csvColumn || null]; an empty
    name is falsy and gives [null] as well. *)
Definition getMappedCsvColumn (mappings : list ColumnMapping)
    (col : SystemColumn) : option string :=
  match find (fun m => strictEq (systemColumn m) col) mappings with
  | Some m => if truthy (csvColumn m) then Some (csvColumn m) else None
  | None => None
  end.

(** The remove button of a system column, rendered when
    [isMapped && mappedCsvColumn]; it carries the source column to clear. *)
Definition removeButton (mappings : list ColumnMapping) (col : SystemColumn)
  : option string :=
  if isSystemColumnMapped mappings col then getMappedCsvColumn mappings col
  else None.

(** Clicking it: [handleMappingChange(mappedCsvColumn, null)]; without a
    button there is nothing to click and the state stays. *)
Definition removeMapping (mappings : list ColumnMapping) (col : SystemColumn)
  : list ColumnMapping :=
  match removeButton mappings col with
  | Some csv => handleMappingChange csv Null mappings
  | None => mappings
  end.

(** User actions on the state *)
Inductive Action :=
  | SetMapping (csv : string) (target : Target)
  | RemoveMapping (col : SystemColumn).

Definition applyAction (a : Action) (mappings : list ColumnMapping)
  : list ColumnMapping :=
  match a with
  | SetMapping csv target => handleMappingChange csv target mappings
  | RemoveMapping col => removeMapping mappings col
  end.

Definition applyActions (acts : list Action) (mappings : list ColumnMapping)
  : list ColumnMapping :=
  fold_left (fun st a => applyAction a st) acts mappings.

End Component.
Export Component.

(** ** Notification effect (ColumnMapping.tsx) *)

Module Notify.

(** How a call completes: normally, or by throwing *)
Inductive Completion :=
  | Normal
  | Throw (error : string).

(** A call made to one of the caller's callbacks *)
Inductive Notification :=
  | ValidationChanged (isValid : bool)
  | MappingChanged (mappings : list ColumnMapping).

(** An effectful computation: the calls it made, and how it completed *)
Definition Effect : Type := list Notification * Completion.

Definition done : Effect := ([], Normal).

(** Sequencing of statements: a throw skips what follows *)
Definition andThen (e : Effect) (k : Effect) : Effect :=
  match e with
  | (calls, Normal) => ((calls ++ fst k)%list, snd k)
  | (calls, Throw err) => (calls, Throw err)
  end.

Notation "e ;; k" := (andThen e k) (at level 61, right associativity).

(** The props [onMappingChange] and [onValidationChange?] *)
Record Callbacks := mkCallbacks {
  onMappingChange : list ColumnMapping -> Completion;
  onValidationChange : option (bool -> Completion)
}.

(** The body of the effect on [mappings]:
    [const validation = validateMappings(mappings);
     onValidationChange?.(validation.valid);
     onMappingChange(mappings);]
    No statement of it is guarded by [try]. *)
Definition notifyEffect (cb : Callbacks) (mappings : list ColumnMapping) : Effect :=
  let validation := validateMappings mappings in
  match onValidationChange cb with
  | Some f => ([ValidationChanged (valid validation)], f (valid validation))
  | None => done
  end ;;
  ([MappingChanged mappings], onMappingChange cb mappings).

(** A state transition: [setMappings(update)] commits [update mappings], the
    component renders again and the effect runs on the committed state. *)
Definition commit (cb : Callbacks)
    (update : list ColumnMapping -> list ColumnMapping)
    (mappings : list ColumnMapping) : list ColumnMapping * Effect :=
  let next := update mappings in
  (next, notifyEffect cb next).

End Notify.
Export Notify.

(** ** Vocabulary of the properties *)

Module Vocabulary.

(** A string in normal form: no capital letter and no separator in it *)
Fixpoint isNormalized (s : string) : bool :=
  match s with
  | EmptyString => true
  | String c r =>
      negb (isUpperCase (nat_of_ascii c)) && negb (isSeparator c) && isNormalized r
  end.

(** The system columns that occur as values of [suggestions] *)
Definition suggestedColumns : list SystemColumn :=
  [ in_dt; in_trans_id; in_product_id; in_quantity; in_price_total;
    in_customer_id; in_description; in_category; in_cost_total; in_stock;
    in_margin; in_discount_total ].

(** The system columns that do not *)
Definition neverSuggested : list SystemColumn :=
  [ in_trans_type; in_unit_type; in_price_unit; in_cost_unit;
    in_commission_total ].

Definition memb (c : SystemColumn) (l : list SystemColumn) : bool :=
  existsb (SystemColumn_eqb c) l.

(** The header row of scenario A *)
Definition scenarioA : list string :=
  [ "fecha"; "id_transaccion"; "producto"; "cantidad"; "precio_total"; "cliente" ].

(** A source column is mapped to [c] in the state *)
Definition mappedTo (mappings : list ColumnMapping) (c : SystemColumn) : Prop :=
  exists m, In m mappings /\ systemColumn m = Col c.

(** A non-empty seed lists the source columns, in their order; the component
    does not check it. *)
Definition seedFollows (cols : list string)
    (seed : option (list ColumnMapping)) : Prop :=
  match seed with
  | Some (m :: l) => map csvColumn (m :: l) = cols
  | _ => True
  end.

(** The header matches no key of the synonym table *)
Definition matchesNoSynonym (col : string) : bool :=
  match ownProperty suggestions (normalize col) with
  | None => true
  | Some _ => false
  end.

(** The normalized header names a member of [Object.prototype] *)
Definition reachesPrototype (col : string) : bool :=
  inb (normalize col) objectPrototypeMembers.

(** The 100 headers col_0 ... col_99 *)
Definition columns100 : list string :=
  map (fun i => "col_" ++ NilEmpty.string_of_uint (Nat.to_uint i))%string
      (seq 0 100).

(** The number of entries of the state for a source column *)
Definition entriesFor (col : string) (st : list ColumnMapping) : nat :=
  List.length (filter (fun m => String.eqb (csvColumn m) col) st).

(** The callback of the test "should handle callback errors gracefully" *)
Definition throwingCallback : list ColumnMapping -> Completion :=
  fun _ => Throw "Callback error".

End Vocabulary.
Export Vocabulary.

(** ** Selection surface and schema panel (ColumnMapping.tsx) *)

Module Presentation.

(** [mappings.find(m => m.csvColumn === csvColumn)?.systemColumn] of
    [renderCsvColumn]; [None] stands for [undefined]. *)
Definition currentTarget (mappings : list ColumnMapping) (csv : string)
  : option Target :=
  option_map systemColumn
    (find (fun m => String.eqb (csvColumn m) csv) mappings).

(** [systemColumn !== col], [systemColumn] being possibly [undefined] *)
Definition differsFrom (t : option Target) (col : SystemColumn) : bool :=
  match t with
  | Some u => negb (strictEq u col)
  | None => true
  end.

(** The [disabled] attribute of the option [col] in the select of [csv]:
    [isSystemColumnMapped(col) && systemColumn !== col] *)
Definition optionDisabled (mappings : list ColumnMapping) (csv : string)
    (col : SystemColumn) : bool :=
  isSystemColumnMapped mappings col
  && differsFrom (currentTarget mappings csv) col.

(** [optionalColumns.filter(col => !inferableColumns.includes(col))] *)
Definition optionalOnly : list SystemColumn :=
  filter (fun col => negb (memb col getInferableColumns)) getOptionalColumns.

(** The options of a select after "Not mapped": the groups Required,
    Optional and Inferable, in this order. *)
Definition selectOptions : list SystemColumn :=
  (getRequiredColumns ++ optionalOnly ++ getInferableColumns)%list.

(** [onChange] of the select: [handleMappingChange(csvColumn,
    e.target.value as SystemColumn || null)]; the value of "Not mapped" is
    the empty string ([None] here), which is falsy. *)
Definition onSelectChange (csv : string) (value : option SystemColumn)
    (mappings : list ColumnMapping) : list ColumnMapping :=
  handleMappingChange csv
    (match value with Some col => Col col | None => Null end) mappings.

(** [COLUMN_SCHEMA[systemColumn]] *)
Definition schemaEntry (col : SystemColumn) : option ColumnSpec :=
  option_map snd (find (fun e => SystemColumn_eqb (fst e) col) COLUMN_SCHEMA).

End Presentation.
Export Presentation.

(** The collapsible sections of the schema panel *)
Module Sections.

Inductive Key := required | optional | inferable.

(** The state [expandedSections] *)
Record Expanded := mkExpanded {
  isRequired : bool;
  isOptional : bool;
  isInferable : bool
}.

(** Its initial value *)
Definition initial : Expanded := mkExpanded true true false.

Definition get (e : Expanded) (k : Key) : bool :=
  match k with
  | required => isRequired e
  | optional => isOptional e
  | inferable => isInferable e
  end.

(** [toggleSection]: [{ ...prev, [section]: !prev[section] }] *)
Definition toggleSection (section : Key) (prev : Expanded) : Expanded :=
  match section with
  | required => mkExpanded (negb (isRequired prev)) (isOptional prev) (isInferable prev)
  | optional => mkExpanded (isRequired prev) (negb (isOptional prev)) (isInferable prev)
  | inferable => mkExpanded (isRequired prev) (isOptional prev) (negb (isInferable prev))
  end.

End Sections.

(** Vocabulary of the further properties *)
Module Vocabulary2.

(** The entries that share a target belong to one source column *)
Definition sourcesAgree (mappings : list ColumnMapping) : Prop :=
  forall m1 m2 c, In m1 mappings -> In m2 mappings ->
    systemColumn m1 = Col c -> systemColumn m2 = Col c ->
    csvColumn m1 = csvColumn m2.

(** A run of user actions in which every change made through a select
    chooses "Not mapped" or an option that is not disabled at that moment *)
Fixpoint allSelectable (acts : list Action) (mappings : list ColumnMapping)
  : bool :=
  match acts with
  | [] => true
  | a :: rest =>
      match a with
      | SetMapping csv Null => true
      | SetMapping csv (Col col) => negb (optionDisabled mappings csv col)
      | SetMapping csv (ProtoMember _) => false
      | RemoveMapping _ => true
      end
      && allSelectable rest (applyAction a mappings)
  end.

End Vocabulary2.
Export Vocabulary2.

(** ** Form schemas and password strength (pages/Auth) *)

Module Forms.

(** A character class given by a range of code units *)
Definition inRange (lo hi : nat) (c : ascii) : bool :=
  let n := nat_of_ascii c in (lo <=? n) && (n <=? hi).

(** [[A-Z]], [[a-z]], [[0-9]] *)
Definition isCapital (c : ascii) : bool := inRange 65 90 c.
Definition isSmall (c : ascii) : bool := inRange 97 122 c.
Definition isDigit (c : ascii) : bool := inRange 48 57 c.

(** [[^A-Za-z0-9]] *)
Definition isSpecial (c : ascii) : bool :=
  negb (isCapital c || isSmall c || isDigit c).

(** [[a-zA-Z0-9_]] *)
Definition isWordChar (c : ascii) : bool :=
  isSmall c || isCapital c || isDigit c || (nat_of_ascii c =? 95).

(** [/[class]/.test(s)]: some character of [s] is in the class *)
Fixpoint test (class : ascii -> bool) (s : string) : bool :=
  match s with
  | EmptyString => false
  | String c r => class c || test class r
  end.

(** [/^[class]+$/.test(s)]: [s] is not empty and all its characters are in
    the class ([$] matches at the very end only, there being no [m] flag). *)
Fixpoint all (class : ascii -> bool) (s : string) : bool :=
  match s with
  | EmptyString => true
  | String c r => class c && all class r
  end.

Definition testWhole (class : ascii -> bool) (s : string) : bool :=
  truthy s && all class s.

(** [z.string().min(n)] and [.max(n)]: [length >= n], [length <= n] *)
Definition min (n : nat) (s : string) : bool := n <=? String.length s.
Definition max (n : nat) (s : string) : bool := String.length s <=? n.

(** The result of [getPasswordStrength] *)
Record PasswordStrength := mkStrength {
  strength : nat;
  label : string;
  color : string
}.

(** The labels; the second letter of the first one is the code unit 233 *)
Definition Debil : string := String "D" (String "233"%char "bil").
Definition Media : string := "Media".
Definition Fuerte : string := "Fuerte".

Definition incr (b : bool) (n : nat) : nat := if b then S n else n.

(** [getPasswordStrength] (Register.tsx) *)
Definition getPasswordStrength (pwd : string) : PasswordStrength :=
  if negb (truthy pwd) then mkStrength 0 "" "" else
  let strength := 0 in
  let strength := incr (8 <=? String.length pwd) strength in
  let strength := incr (12 <=? String.length pwd) strength in
  let strength := incr (test isCapital pwd) strength in
  let strength := incr (test isSmall pwd) strength in
  let strength := incr (test isDigit pwd) strength in
  let strength := incr (test isSpecial pwd) strength in
  if strength <=? 2 then mkStrength strength Debil "bg-red-500"
  else if strength <=? 4 then mkStrength strength Media "bg-yellow-500"
  else mkStrength strength Fuerte "bg-green-500".

(** The password rules shared by [registerSchema] and
    [changePasswordSchema]: [min(1)], [min(8)], and the three [regex]
    checks. A field is accepted when no check of it fails. *)
Definition passwordField (pwd : string) : bool :=
  min 1 pwd && min 8 pwd
  && test isCapital pwd && test isSmall pwd && test isDigit pwd.

(** [username] of [registerSchema] *)
Definition usernameField (username : string) : bool :=
  min 1 username && min 3 username && max 30 username
  && testWhole isWordChar username.

(** [email] of [registerSchema] and [loginSchema]: [min(1)] and [.email()],
    the check of the zod library, which is taken as [isEmail]. *)
Definition emailField (isEmail : string -> bool) (email : string) : bool :=
  min 1 email && isEmail email.

Record RegisterFormData := mkRegister {
  email : string;
  username : string;
  password : string;
  password_confirm : string
}.

(** [registerSchema] accepts the data: every field passes, and so does the
    refinement [data.password === data.password_confirm]. *)
Definition registerSchema (isEmail : string -> bool) (data : RegisterFormData)
  : bool :=
  emailField isEmail (email data)
  && usernameField (username data)
  && passwordField (password data)
  && min 1 (password_confirm data)
  && String.eqb (password data) (password_confirm data).

Record ChangePasswordFormData := mkChangePassword {
  old_password : string;
  new_password : string;
  new_password_confirm : string
}.

(** [changePasswordSchema], with its two refinements *)
Definition changePasswordSchema (data : ChangePasswordFormData) : bool :=
  min 1 (old_password data)
  && passwordField (new_password data)
  && min 1 (new_password_confirm data)
  && negb (String.eqb (new_password data) (old_password data))
  && String.eqb (new_password data) (new_password_confirm data).

Record LoginFormData := mkLogin {
  login_email : string;
  login_password : string
}.

(** [loginSchema] (Login.tsx) *)
Definition loginSchema (isEmail : string -> bool) (data : LoginFormData) : bool :=
  emailField isEmail (login_email data)
  && (min 1 (login_password data) && min 6 (login_password data)).

(** The number of character classes (capital, small, digit, other) that
    occur in a password *)
Definition classesIn (pwd : string) : nat :=
  incr (test isCapital pwd)
    (incr (test isSmall pwd) (incr (test isDigit pwd) (incr (test isSpecial pwd) 0))).

End Forms.
Export Forms.

(** Vocabulary of the properties of the forms *)
Module Vocabulary3.

(** The sum [getPasswordStrength] accumulates for a non-empty password *)
Definition score (pwd : string) : nat :=
  incr (test isSpecial pwd)
    (incr (test isDigit pwd)
       (incr (test isSmall pwd)
          (incr (test isCapital pwd)
             (incr (12 <=? String.length pwd)
                (incr (8 <=? String.length pwd) 0))))).

End Vocabulary3.
Export Vocabulary3.

(** ** Authentication store (store/authStore.ts)

    An action runs from its first statement to the settling of its promise
    with no other action in between. The copy of the state that the
    [persist] middleware keeps under its own key is not part of the model;
    the items "ayni_tokens" and "ayni_user" are. *)

Module AuthStore.

(** [interface User] (types/auth.ts); [id] is a database key *)
Record User := mkUser {
  id : nat;
  email : string;
  username : string;
  is_active : bool;
  is_staff : bool;
  date_joined : string;
  last_login : option string
}.

Record AuthTokens := mkTokens {
  access : string;
  refresh : string
}.

Record AuthResponse := mkResponse {
  response_user : User;
  response_tokens : AuthTokens
}.

Record AuthError := mkError {
  message : string;
  field : option string;
  code : option string
}.

Record AuthState := mkState {
  user : option User;
  tokens : option AuthTokens;
  isAuthenticated : bool;
  isLoading : bool;
  error : option AuthError
}.

(** The initial state of the store *)
Definition initialState : AuthState := mkState None None false false None.

(** [localStorage]: the item of every key, if any *)
Definition Storage : Type := string -> option string.

Definition getItem (key : string) (ls : Storage) : option string := ls key.

Definition setItem (key value : string) (ls : Storage) : Storage :=
  fun k => if String.eqb k key then Some value else ls k.

Definition removeItem (key : string) (ls : Storage) : Storage :=
  fun k => if String.eqb k key then None else ls k.

(** The store and the storage it writes to *)
Record Store := mkStore {
  state : AuthState;
  storage : Storage
}.

(** What [JSON.parse] does with a stored string: it throws, or returns a
    value, which is [null] ([None]) for the text "null". Values of another
    shape than the one the store casts them to are left out. *)
Inductive Parse (A : Type) :=
  | SyntaxError
  | Parsed (v : option A).
Arguments SyntaxError {A}.
Arguments Parsed {A} v.

Section Actions.

(** What a rejected promise carries, and [authApi.extractErrorMessage] *)
Variable Err : Type.
Variable extractErrorMessage : Err -> string.

(** [JSON.stringify] and [JSON.parse] on tokens and users *)
Variable stringifyTokens : AuthTokens -> string.
Variable stringifyUser : User -> string.
Variable parseTokens : string -> Parse AuthTokens.
Variable parseUser : string -> Parse User.

(** How an awaited call of [authApi] settles *)
Inductive Settled (A : Type) :=
  | Resolves (a : A)
  | Rejects (e : Err).
Arguments Resolves {A} a.
Arguments Rejects {A} e.

(** A call of [authApi] as the store sees it: the interceptors of the
    client may rewrite the storage while the call is awaited, and the call
    resolves or rejects. *)
Definition Call (A : Type) : Type := Storage -> Storage * Settled A.

(** [set({ isLoading: true, error: null })] *)
Definition loading (s : AuthState) : AuthState :=
  mkState (user s) (tokens s) (isAuthenticated s) true None.

(** [set({ isLoading: false, error: { message } })] *)
Definition failed (msg : string) (s : AuthState) : AuthState :=
  mkState (user s) (tokens s) (isAuthenticated s) false
          (Some (mkError msg None None)).

(** The body shared by [login] and [register], which differ in the call of
    [authApi] only *)
Definition signIn (call : Call AuthResponse) (st : Store)
  : Store * Settled unit :=
  let s := loading (state st) in
  match call (storage st) with
  | (ls, Resolves response) =>
      let ls := setItem "ayni_tokens" (stringifyTokens (response_tokens response)) ls in
      let ls := setItem "ayni_user" (stringifyUser (response_user response)) ls in
      (mkStore (mkState (Some (response_user response))
                        (Some (response_tokens response)) true false None) ls,
       Resolves tt)
  | (ls, Rejects e) =>
      (mkStore (failed (extractErrorMessage e) s) ls, Rejects e)
  end.

Definition login (call : Call AuthResponse) (st : Store) := signIn call st.
Definition register (call : Call AuthResponse) (st : Store) := signIn call st.

(** The refresh token [logout] sends, if [tokens?.refresh] is truthy *)
Definition logoutRequest (s : AuthState) : option string :=
  match tokens s with
  | Some t => if truthy (refresh t) then Some (refresh t) else None
  | None => None
  end.

(** [logout]: the call is made for a truthy refresh token only, its
    rejection is caught, and the [finally] block clears storage and state. *)
Definition logout (call : string -> Call unit) (st : Store)
  : Store * Settled unit :=
  let ls :=
    match logoutRequest (state st) with
    | Some token => fst (call token (storage st))
    | None => storage st
    end in
  let ls := removeItem "ayni_tokens" ls in
  let ls := removeItem "ayni_user" ls in
  (mkStore (mkState None None false false None) ls, Resolves tt).

Definition changePassword (call : Call unit) (st : Store)
  : Store * Settled unit :=
  let s := loading (state st) in
  match call (storage st) with
  | (ls, Resolves _) =>
      (mkStore (mkState (user s) (tokens s) (isAuthenticated s) false None) ls,
       Resolves tt)
  | (ls, Rejects e) =>
      (mkStore (failed (extractErrorMessage e) s) ls, Rejects e)
  end.

Definition updateProfile (call : Call User) (st : Store)
  : Store * Settled unit :=
  let s := loading (state st) in
  match call (storage st) with
  | (ls, Resolves updatedUser) =>
      let ls := setItem "ayni_user" (stringifyUser updatedUser) ls in
      (mkStore (mkState (Some updatedUser) (tokens s) (isAuthenticated s)
                        false None) ls,
       Resolves tt)
  | (ls, Rejects e) =>
      (mkStore (failed (extractErrorMessage e) s) ls, Rejects e)
  end.

(** [clearError]: [set({ error: null })] *)
Definition clearError (st : Store) : Store :=
  let s := state st in
  mkStore (mkState (user s) (tokens s) (isAuthenticated s) (isLoading s) None)
          (storage st).

(** A stored item that is present and truthy *)
Definition truthyItem (item : option string) : option string :=
  match item with
  | Some v => if truthy v then Some v else None
  | None => None
  end.

(** [initializeAuth]: both items must be truthy; a parse that throws is
    caught, and both items are removed then. *)
Definition initializeAuth (st : Store) : Store :=
  let s := state st in
  match truthyItem (getItem "ayni_tokens" (storage st)),
        truthyItem (getItem "ayni_user" (storage st)) with
  | Some tokensStr, Some userStr =>
      match parseTokens tokensStr with
      | Parsed t =>
          match parseUser userStr with
          | Parsed u =>
              mkStore (mkState u t true (isLoading s) (error s)) (storage st)
          | SyntaxError =>
              mkStore s (removeItem "ayni_user"
                           (removeItem "ayni_tokens" (storage st)))
          end
      | SyntaxError =>
          mkStore s (removeItem "ayni_user"
                       (removeItem "ayni_tokens" (storage st)))
      end
  | _, _ => st
  end.

(** The actions of the store, with the calls of [authApi] they await *)
Inductive Action :=
  | Login (call : Call AuthResponse)
  | Register (call : Call AuthResponse)
  | Logout (call : string -> Call unit)
  | ChangePassword (call : Call unit)
  | UpdateProfile (call : Call User)
  | ClearError
  | InitializeAuth.

Definition run (a : Action) (st : Store) : Store * Settled unit :=
  match a with
  | Login call => login call st
  | Register call => register call st
  | Logout call => logout call st
  | ChangePassword call => changePassword call st
  | UpdateProfile call => updateProfile call st
  | ClearError => (clearError st, Resolves tt)
  | InitializeAuth => (initializeAuth st, Resolves tt)
  end.

(** Actions one after the other, each one started when the one before has
    settled *)
Definition runAll (acts : list Action) (st : Store) : Store :=
  fold_left (fun st a => fst (run a st)) acts st.

(** [initializeAuth] run on this store sets neither a [null] user nor
    [null] tokens: the stored texts, when both are truthy and parse, do not
    parse to [null]. *)
Definition restoresNoNull (st : Store) : bool :=
  match truthyItem (getItem "ayni_tokens" (storage st)),
        truthyItem (getItem "ayni_user" (storage st)) with
  | Some tokensStr, Some userStr =>
      match parseTokens tokensStr, parseUser userStr with
      | Parsed None, Parsed _ => false
      | Parsed _, Parsed None => false
      | _, _ => true
      end
  | _, _ => true
  end.

(** A run of actions in which every [initializeAuth] finds a storage it
    restores no [null] from *)
Fixpoint restoresNoNullAlong (acts : list Action) (st : Store) : bool :=
  match acts with
  | [] => true
  | a :: rest =>
      match a with
      | InitializeAuth => restoresNoNull st
      | _ => true
      end
      && restoresNoNullAlong rest (fst (run a st))
  end.

End Actions.

Arguments Resolves {Err A} a.
Arguments Rejects {Err A} e.

(** An authenticated state holds a user and tokens *)
Definition sessionComplete (s : AuthState) : Prop :=
  isAuthenticated s = true -> user s <> None /\ tokens s <> None.

End AuthStore.

(** ** Error messages of the API client (lib/api/auth.ts) *)

Module ApiError.

(** JavaScript values as a response body holds them. An object is given by
    its own properties in the order [Object.values] enumerates them, each
    key once; the value of a number plays no role here. *)
#[local] Unset Elimination Schemes.
Inductive JsValue :=
  | JUndefined
  | JNull
  | JBool (b : bool)
  | JNumber (n : nat)
  | JString (s : string)
  | JArray (items : list JsValue)
  | JObject (entries : list (string * JsValue)).
#[local] Set Elimination Schemes.

(** [error.response]: its [data] and [statusText] *)
Record Response := mkResponse {
  data : JsValue;
  statusText : string
}.

(** What is caught: an error of axios, with or without a response, another
    [Error], or any other value *)
Inductive Thrown :=
  | AxiosError (response : option Response) (message : string)
  | OtherError (message : string)
  | NotAnError (v : JsValue).

(** [data && typeof data === 'object'] *)
Definition isObject (v : JsValue) : bool :=
  match v with
  | JArray _ | JObject _ => true
  | _ => false
  end.

(** [Object.values(data)] *)
Definition values (v : JsValue) : list JsValue :=
  match v with
  | JArray items => items
  | JObject entries => map snd entries
  | _ => []
  end.

(** [l[0]], [undefined] on an empty array *)
Definition first (l : list JsValue) : JsValue :=
  match l with
  | [] => JUndefined
  | v :: _ => v
  end.

(** [data[key]] for one of the keys "detail" and "message", which neither
    an array nor [Object.prototype] defines: [None] when [key in data] is
    false *)
Fixpoint property (key : string) (entries : list (string * JsValue))
  : option JsValue :=
  match entries with
  | [] => None
  | (k, v) :: rest => if String.eqb k key then Some v else property key rest
  end.

Definition get (key : string) (v : JsValue) : option JsValue :=
  match v with
  | JObject entries => property key entries
  | _ => None
  end.

(** [key in data && typeof data[key] === 'string'] *)
Definition stringAt (key : string) (v : JsValue) : option string :=
  match get key v with
  | Some (JString s) => Some s
  | _ => None
  end.

(** [error.response?.statusText || error.message] *)
Definition statusOrMessage (response : option Response) (message : string)
  : string :=
  match response with
  | Some r => if truthy (statusText r) then statusText r else message
  | None => message
  end.

(** [extractErrorMessage]; its declared result is a string, but
    [firstError[0] as string] returns whatever the array starts with. *)
Definition extractErrorMessage (error : Thrown) : JsValue :=
  match error with
  | AxiosError response message =>
      let fallback := JString (statusOrMessage response message) in
      match response with
      | Some r =>
          if isObject (data r) then
            match first (values (data r)) with
            | JArray firstError => first firstError
            | JString firstError => JString firstError
            | _ =>
                match stringAt "detail" (data r) with
                | Some detail => JString detail
                | None =>
                    match stringAt "message" (data r) with
                    | Some message => JString message
                    | None => fallback
                    end
                end
            end
          else fallback
      | None => fallback
      end
  | OtherError message => JString message
  | NotAnError _ => JString "An unexpected error occurred"
  end.

End ApiError.

(** ** JavaScript strings as UTF-16 code units

    [toLowerCase] works on the code points of a string: two code units that
    form a surrogate pair are lower-cased as one code point. The case
    mapping is a table of the Unicode standard; of it this module lists
    the code points below 256, the white space, the surrogates and the
    Deseret letters U+10400-U+1044F, and [toLowerCase] is [None] on a
    string with a code point that is not listed. On strings of code units
    below 256 it agrees with [JsString] (lemma [normalize_latin1]). *)

Module Utf16.

Local Open Scope N_scope.

Definition isLeadSurrogate (u : N) : bool := (0xD800 <=? u) && (u <=? 0xDBFF).
Definition isTrailSurrogate (u : N) : bool := (0xDC00 <=? u) && (u <=? 0xDFFF).

(** The code point of a surrogate pair *)
Definition pairCodePoint (lead trail : N) : N :=
  0x10000 + (lead - 0xD800) * 0x400 + (trail - 0xDC00).

(** StringToCodePoints: a lead surrogate followed by a trail surrogate is
    one code point, every other code unit is a code point of its own. *)
Fixpoint codePoints (units : list N) : list N :=
  match units with
  | [] => []
  | u :: rest =>
      match rest with
      | t :: rest' =>
          if isLeadSurrogate u && isTrailSurrogate t
          then pairCodePoint u t :: codePoints rest'
          else u :: codePoints rest
      | [] => [u]
      end
  end.

(** CodePointsToString on one code point *)
Definition codeUnits (cp : N) : list N :=
  if cp <? 0x10000 then [cp]
  else [0xD800 + (cp - 0x10000) / 0x400; 0xDC00 + (cp - 0x10000) mod 0x400].

(** The class [\s] on code units *)
Definition isWhiteSpace (u : N) : bool :=
  ((9 <=? u) && (u <=? 13)) || (u =? 32) || (u =? 160) || (u =? 0x1680)
  || ((0x2000 <=? u) && (u <=? 0x200A)) || (u =? 0x2028) || (u =? 0x2029)
  || (u =? 0x202F) || (u =? 0x205F) || (u =? 0x3000) || (u =? 0xFEFF).

(** The class of [/[_\s-]/g], which has no [u] flag and so works on code
    units *)
Definition isSeparator (u : N) : bool :=
  (u =? 95) || isWhiteSpace u || (u =? 45).

Definition removeSeparators (units : list N) : list N :=
  filter (fun u => negb (isSeparator u)) units.

(** Capital letters below 256, as in [JsString.isUpperCase] *)
Definition isUpperCase (cp : N) : bool :=
  ((65 <=? cp) && (cp <=? 90))
  || ((192 <=? cp) && (cp <=? 222) && negb (cp =? 215)).

(** The lower case of a code point, where this module lists it *)
Definition lowerCaseOf (cp : N) : option N :=
  if cp <? 256 then Some (if isUpperCase cp then cp + 32 else cp)
  else if isWhiteSpace cp then Some cp
  else if isLeadSurrogate cp || isTrailSurrogate cp then Some cp
  else if (0x10400 <=? cp) && (cp <=? 0x10427) then Some (cp + 40)
  else if (0x10428 <=? cp) && (cp <=? 0x1044F) then Some cp
  else None.

Fixpoint lowerCaseAll (cps : list N) : option (list N) :=
  match cps with
  | [] => Some []
  | cp :: rest =>
      match lowerCaseOf cp, lowerCaseAll rest with
      | Some l, Some rest' => Some (l :: rest')
      | _, _ => None
      end
  end.

(** [s.toLowerCase()] *)
Definition toLowerCase (units : list N) : option (list N) :=
  option_map (flat_map codeUnits) (lowerCaseAll (codePoints units)).

(** [csvColumn.toLowerCase().replace(/[_\s-]/g, '')] *)
Definition normalize (units : list N) : option (list N) :=
  option_map removeSeparators (toLowerCase units).



End Utf16.

(** * Properties *)

(** ** Normalization *)

Section Normalization.

Local Ltac by_cases_on c :=
  destruct c as [[] [] [] [] [] [] [] []]; reflexivity.



Lemma toLowerCaseChar_not_upper (c : ascii) :
  isUpperCase (nat_of_ascii (toLowerCaseChar c)) = false.
Proof. by_cases_on c. Qed.





Lemma removeSeparators_lower_normalized (s : string) :
  isNormalized (removeSeparators (toLowerCase s)) = true.
Proof.
  induction s as [|c r IH]; simpl; [reflexivity|].
  destruct (isSeparator (toLowerCaseChar c)) eqn:E; simpl; [exact IH|].
  now rewrite toLowerCaseChar_not_upper, E, IH.
Qed.

Lemma normalize_isNormalized (s : string) : isNormalized (normalize s) = true.
Proof. apply removeSeparators_lower_normalized. Qed.

End Normalization.

(** ** Suggestion resolver *)

Section SuggestionRange.

Lemma ownProperty_value_in (o : list (string * SystemColumn)) key c :
  ownProperty o key = Some c -> In c (map snd o).
Proof.
  induction o as [|[k v] r IH]; simpl; [discriminate|].
  destruct (String.eqb k key).
  - intros [= ->]. now left.
  - intros H. right. now apply IH.
Qed.

Lemma suggestions_values (c : SystemColumn) :
  In c (map snd suggestions) -> memb c suggestedColumns = true.
Proof.
  simpl. intros H.
  repeat (destruct H as [<-|H]; [reflexivity|]).
  contradiction.
Qed.

Lemma inherited_normalized (k : string) :
  isNormalized k = true -> inb k objectPrototypeMembers = true ->
  k = "constructor".
Proof.
  intros Hn Hin. unfold inb, objectPrototypeMembers in Hin. simpl in Hin.
  repeat match type of Hin with
  | (String.eqb k ?m || _)%bool = true =>
      apply Bool.orb_true_iff in Hin; destruct Hin as [Hin|Hin];
      [ apply String.eqb_eq in Hin; subst k;
        first [reflexivity | discriminate Hn] | ]
  end.
  discriminate Hin.
Qed.

(** Every result of the resolver is [null], a column of [suggestedColumns], or
    the inherited member [constructor]. *)
Lemma suggestMapping_cases (s : string) :
  suggestMapping s = Null
  \/ (exists c, suggestMapping s = Col c /\ memb c suggestedColumns = true)
  \/ (normalize s = "constructor" /\ suggestMapping s = ProtoMember "constructor").
Proof.
  unfold suggestMapping, getProperty. cbv zeta.
  destruct (ownProperty suggestions (normalize s)) as [c|] eqn:Eo.
  - right; left. exists c. split; [reflexivity|].
    apply suggestions_values. eapply ownProperty_value_in; eassumption.
  - destruct (inb (normalize s) objectPrototypeMembers) eqn:Ei.
    + right; right.
      assert (H : normalize s = "constructor")
        by (apply inherited_normalized; [apply normalize_isNormalized | exact Ei]).
      split; [exact H|]. simpl. now rewrite H.
    + now left.
Qed.

End SuggestionRange.

(** C1, as stated, fails: scenario A does not leave "id_transaccion" and
    "producto" unmapped, and does not map "precio_total" to in_price_total. *)
Lemma C1_scenarioA_as_stated_fails :
  map suggestMapping scenarioA
  <> [ Col in_dt; Null; Null; Col in_quantity; Col in_price_total;
       Col in_customer_id ].
Proof. vm_compute. discriminate. Qed.

(** C1 (amended): for the header row of scenario A and no seed, the state
    after mounting maps "fecha" to in_dt, "id_transaccion" to in_trans_id
    (synonym "idtransaccion"), "producto" to in_product_id, "cantidad" to
    in_quantity and "cliente" to in_customer_id, and leaves "precio_total"
    unmapped, "preciototal" being no key of the synonym table. *)
Theorem C1_scenarioA :
  initialize scenarioA None
  = [ mkMapping "fecha" (Col in_dt);
      mkMapping "id_transaccion" (Col in_trans_id);
      mkMapping "producto" (Col in_product_id);
      mkMapping "cantidad" (Col in_quantity);
      mkMapping "precio_total" Null;
      mkMapping "cliente" (Col in_customer_id) ]
  /\ normalize "id_transaccion" = "idtransaccion"
  /\ normalize "precio_total" = "preciototal"
  /\ ownProperty suggestions "preciototal" = None.
Proof. repeat split. Qed.

(** *** The two models of strings agree below 256 *)

Section Latin1.

Local Open Scope N_scope.

Local Ltac by_cases_on c :=
  destruct c as [[] [] [] [] [] [] [] []]; reflexivity.













End Latin1.



(** C10 at the header "constructor": the property read reaches
    [Object.prototype.constructor], and the resolver returns it, a value that
    is neither [null] nor a system column. Apart from this inherited member,
    every suggestion is [null] or one of the twelve columns of
    [suggestedColumns], and the five columns of [neverSuggested] are never
    returned. *)
Theorem C10_constructor_escapes_range :
  suggestMapping "constructor" = ProtoMember "constructor"
  /\ ownProperty suggestions "constructor" = None
  /\ (forall s : string,
        suggestMapping s = Null
        \/ (exists c, suggestMapping s = Col c
                      /\ memb c suggestedColumns = true
                      /\ memb c neverSuggested = false)
        \/ (normalize s = "constructor"
            /\ suggestMapping s = ProtoMember "constructor")).
Proof.
  split; [reflexivity|]. split; [reflexivity|].
  intros s. destruct (suggestMapping_cases s) as [H|[(c & H & Hc)|H]].
  - now left.
  - right; left. exists c. split; [exact H|]. split; [exact Hc|].
    destruct c; try discriminate Hc; reflexivity.
  - now right; right.
Qed.

(** ** Validator *)

Section Validation.

Lemma SystemColumn_eqb_eq (a b : SystemColumn) :
  SystemColumn_eqb a b = true <-> a = b.
Proof.
  split.
  - destruct a, b; simpl; intros H; first [reflexivity | discriminate H].
  - intros ->. destruct b; reflexivity.
Qed.

Lemma strictEq_true (t : Target) (c : SystemColumn) :
  strictEq t c = true <-> t = Col c.
Proof.
  destruct t as [|c'|n]; simpl.
  - split; discriminate.
  - rewrite SystemColumn_eqb_eq. split; [now intros ->|now intros [= ->]].
  - split; discriminate.
Qed.

Lemma isSystemColumnMapped_true mappings c :
  isSystemColumnMapped mappings c = true <-> mappedTo mappings c.
Proof.
  unfold isSystemColumnMapped, mappedTo. rewrite existsb_exists.
  split; intros (m & Hm & H); exists m; (split; [exact Hm|]);
    now apply strictEq_true.
Qed.

(** The non-null targets, searched with [includes], hold [c] exactly when
    some entry of the state has target [c]. *)
Lemma includes_mapped mappings c :
  includes (map systemColumn
              (filter (fun m => notNull (systemColumn m)) mappings)) c
  = isSystemColumnMapped mappings c.
Proof.
  unfold includes, isSystemColumnMapped.
  induction mappings as [|[csv [|c'|n]] r IH]; simpl; [reflexivity| | |];
    now rewrite IH.
Qed.

Lemma missingRequired_filter mappings :
  missingRequired (validateMappings mappings)
  = filter (fun c => negb (isSystemColumnMapped mappings c)) getRequiredColumns.
Proof.
  unfold validateMappings; cbn [missingRequired].
  apply filter_ext. intros c. now rewrite includes_mapped.
Qed.

Lemma In_missingRequired mappings c :
  In c (missingRequired (validateMappings mappings))
  <-> In c getRequiredColumns /\ ~ mappedTo mappings c.
Proof.
  rewrite missingRequired_filter, filter_In, Bool.negb_true_iff.
  rewrite <- isSystemColumnMapped_true, Bool.not_true_iff_false. reflexivity.
Qed.

Lemma valid_missingRequired mappings :
  valid (validateMappings mappings) = true
  <-> missingRequired (validateMappings mappings) = [].
Proof.
  unfold validateMappings; cbn [valid missingRequired].
  rewrite Nat.eqb_eq. apply length_zero_iff_nil.
Qed.

Lemma valid_iff mappings :
  valid (validateMappings mappings) = true
  <-> forall c, In c getRequiredColumns -> mappedTo mappings c.
Proof.
  rewrite valid_missingRequired. split.
  - intros Hnil c Hc.
    apply isSystemColumnMapped_true.
    destruct (isSystemColumnMapped mappings c) eqn:E; [reflexivity|].
    assert (Hin : In c (missingRequired (validateMappings mappings))).
    { apply In_missingRequired. split; [exact Hc|].
      rewrite <- isSystemColumnMapped_true, E. discriminate. }
    rewrite Hnil in Hin. contradiction.
  - intros Hall.
    destruct (missingRequired (validateMappings mappings)) as [|c l] eqn:E;
      [reflexivity|].
    assert (Hin : In c (missingRequired (validateMappings mappings)))
      by (rewrite E; now left).
    apply In_missingRequired in Hin. destruct Hin as [Hc Hn].
    elim Hn. now apply Hall.
Qed.

Lemma unmapped_state_not_mapped mappings c :
  (forall m, In m mappings -> systemColumn m = Null) ->
  isSystemColumnMapped mappings c = false.
Proof.
  intros Hall. apply Bool.not_true_iff_false. intros H.
  apply isSystemColumnMapped_true in H. destruct H as (m & Hm & H).
  rewrite (Hall m Hm) in H. discriminate.
Qed.

End Validation.

(** C2: [validateMappings] answers [valid = true] exactly when every required
    column is the target of some entry; [missingRequired] holds exactly the
    required columns that no entry targets, as a sub-sequence of the registry
    order (the five required columns in_dt, in_trans_id, in_product_id,
    in_quantity, in_price_total); when every target is [null], [valid] is
    false and all five are missing, in registry order. *)
Theorem C2_validate_complete (mappings : list ColumnMapping) :
  (valid (validateMappings mappings) = true
     <-> forall c, In c getRequiredColumns -> mappedTo mappings c)
  /\ (forall c, In c (missingRequired (validateMappings mappings))
                <-> In c getRequiredColumns /\ ~ mappedTo mappings c)
  /\ (exists keep, missingRequired (validateMappings mappings)
                   = filter keep getRequiredColumns)
  /\ getRequiredColumns
     = [in_dt; in_trans_id; in_product_id; in_quantity; in_price_total]
  /\ ((forall m, In m mappings -> systemColumn m = Null) ->
      valid (validateMappings mappings) = false
      /\ missingRequired (validateMappings mappings)
         = [in_dt; in_trans_id; in_product_id; in_quantity; in_price_total]).
Proof.
  split; [apply valid_iff|].
  split; [intros c; apply In_missingRequired|].
  split; [eexists; apply missingRequired_filter|].
  split; [reflexivity|].
  intros Hall.
  assert (Hm : missingRequired (validateMappings mappings) = getRequiredColumns).
  { rewrite missingRequired_filter.
    rewrite (filter_ext _ (fun _ => true)).
    - generalize getRequiredColumns. intros l.
      induction l as [|x l IH]; simpl; [reflexivity|now rewrite IH].
    - intros c. now rewrite unmapped_state_not_mapped. }
  split; [|exact Hm].
  apply Bool.not_true_iff_false. rewrite valid_missingRequired, Hm. discriminate.
Qed.

(** Scenario C on two unmapped source columns, and scenario B on five mapped
    ones. *)
Lemma C2_validate_witness :
  (valid (validateMappings [mkMapping "col1" Null; mkMapping "col2" Null]) = false
   /\ missingRequired (validateMappings [mkMapping "col1" Null; mkMapping "col2" Null])
      = [in_dt; in_trans_id; in_product_id; in_quantity; in_price_total])
  /\ valid (validateMappings
              [ mkMapping "date" (Col in_dt); mkMapping "trans" (Col in_trans_id);
                mkMapping "prod" (Col in_product_id);
                mkMapping "qty" (Col in_quantity);
                mkMapping "price" (Col in_price_total) ]) = true.
Proof.
  split.
  - destruct (C2_validate_complete [mkMapping "col1" Null; mkMapping "col2" Null])
      as (_ & _ & _ & _ & Hnone).
    apply Hnone. intros m [<-|[<-|[]]]; reflexivity.
  - destruct (C2_validate_complete
                [ mkMapping "date" (Col in_dt); mkMapping "trans" (Col in_trans_id);
                  mkMapping "prod" (Col in_product_id);
                  mkMapping "qty" (Col in_quantity);
                  mkMapping "price" (Col in_price_total) ])
      as (Hvalid & _).
    apply Hvalid. intros c Hc. simpl in Hc.
    destruct Hc as [<-|[<-|[<-|[<-|[<-|[]]]]]];
      apply isSystemColumnMapped_true; reflexivity.
Defined.

(** ** Mapping state *)

Section MappingState.

Lemma initialize_seeded cols m l : initialize cols (Some (m :: l)) = m :: l.
Proof. reflexivity. Qed.

Lemma initialize_unseeded cols :
  initialize cols None = map (fun col => mkMapping col (suggestMapping col)) cols.
Proof. reflexivity. Qed.

Lemma initialize_empty_seed cols :
  initialize cols (Some []) = map (fun col => mkMapping col Null) cols.
Proof. reflexivity. Qed.

Lemma csvColumn_initialize cols seed :
  seedFollows cols seed -> map csvColumn (initialize cols seed) = cols.
Proof.
  destruct seed as [[|m l]|]; intros H.
  - rewrite initialize_empty_seed, map_map. apply map_id.
  - exact H.
  - rewrite initialize_unseeded, map_map. apply map_id.
Qed.

Lemma csvColumn_handleMappingChange s t st :
  map csvColumn (handleMappingChange s t st) = map csvColumn st.
Proof.
  unfold handleMappingChange. rewrite map_map. apply map_ext.
  intros m. now destruct (String.eqb (csvColumn m) s).
Qed.

Lemma csvColumn_removeMapping st X :
  map csvColumn (removeMapping st X) = map csvColumn st.
Proof.
  unfold removeMapping. destruct (removeButton st X); [|reflexivity].
  apply csvColumn_handleMappingChange.
Qed.

Lemma csvColumn_applyAction a st :
  map csvColumn (applyAction a st) = map csvColumn st.
Proof.
  destruct a; [apply csvColumn_handleMappingChange|apply csvColumn_removeMapping].
Qed.

Lemma csvColumn_applyActions acts st :
  map csvColumn (applyActions acts st) = map csvColumn st.
Proof.
  unfold applyActions. revert st.
  induction acts as [|a r IH]; intros st; simpl; [reflexivity|].
  now rewrite IH, csvColumn_applyAction.
Qed.

Lemma suggestMapping_no_match col :
  matchesNoSynonym col = true -> reachesPrototype col = false ->
  suggestMapping col = Null.
Proof.
  unfold matchesNoSynonym, reachesPrototype, suggestMapping, getProperty.
  cbv zeta. destruct (ownProperty suggestions (normalize col)); [discriminate|].
  now intros _ ->.
Qed.

Lemma initialize_no_match cols :
  forallb matchesNoSynonym cols = true ->
  forallb (fun col => negb (reachesPrototype col)) cols = true ->
  initialize cols None = map (fun col => mkMapping col Null) cols.
Proof.
  rewrite initialize_unseeded, !forallb_forall. intros Hs Hp.
  apply map_ext_in. intros col Hin. f_equal.
  apply suggestMapping_no_match; [now apply Hs|].
  apply Bool.negb_true_iff. now apply Hp.
Qed.

End MappingState.

(** C3 at an empty seed: the state keeps the [null] targets of the
    [useState] initializer, the auto-suggest effect being guarded by
    [!initialMappings], while the initializer itself treats an empty seed as
    no seed. A non-empty seed is taken verbatim, and with no seed every
    source column gets the resolver's suggestion, in input order. *)
Theorem C3_empty_seed_not_suggested :
  initialize ["fecha"] (Some []) = [mkMapping "fecha" Null]
  /\ suggestMapping "fecha" = Col in_dt
  /\ (forall cols, initialize cols (Some [])
                   = map (fun col => mkMapping col Null) cols)
  /\ (forall cols m l, initialize cols (Some (m :: l)) = m :: l)
  /\ (forall cols, initialize cols None
                   = map (fun col => mkMapping col (suggestMapping col)) cols).
Proof. repeat split. Qed.

(** C4, as stated, fails: a seed is taken verbatim, whatever its length. *)
Lemma C4_seed_of_other_length :
  List.length (initialize ["a"; "b"] (Some [mkMapping "x" Null]))
  <> List.length ["a"; "b"].
Proof. vm_compute. discriminate. Qed.

(** C4 (amended): when the seed, if there is a non-empty one, lists the
    source columns in input order, the state after [initialize] has the
    length and the order of the input; and with no seed or an empty one,
    source columns whose normalized names are neither keys of the synonym
    table nor names of [Object.prototype] members all get target [null], in
    input order. *)
Theorem C4_initialize_preserves_order (cols : list string)
    (seed : option (list ColumnMapping)) :
  seedFollows cols seed ->
  map csvColumn (initialize cols seed) = cols
  /\ List.length (initialize cols seed) = List.length cols
  /\ (seed = None \/ seed = Some [] ->
      forallb matchesNoSynonym cols = true ->
      forallb (fun col => negb (reachesPrototype col)) cols = true ->
      initialize cols seed = map (fun col => mkMapping col Null) cols).
Proof.
  intros Hseed.
  pose proof (csvColumn_initialize cols seed Hseed) as Hcsv.
  split; [exact Hcsv|]. split.
  - rewrite <- Hcsv at 2. now rewrite length_map.
  - intros [->| ->] Hs Hp.
    + now apply initialize_no_match.
    + apply initialize_empty_seed.
Qed.

(** Scenario D on col_0 ... col_99 *)
Lemma C4_initialize_witness :
  map csvColumn (initialize columns100 None) = columns100
  /\ List.length (initialize columns100 None) = 100
  /\ initialize columns100 None = map (fun col => mkMapping col Null) columns100.
Proof.
  destruct (C4_initialize_preserves_order columns100 None I) as (H1 & H2 & H3).
  split; [exact H1|]. split; [exact H2|].
  apply H3; [now left | vm_compute; reflexivity | vm_compute; reflexivity].
Defined.

(** ** Setting and removing a mapping *)

Section Mutation.

Lemma nth_error_handleMappingChange s t st i :
  nth_error (handleMappingChange s t st) i
  = option_map (fun m => if String.eqb (csvColumn m) s
                         then mkMapping (csvColumn m) t else m)
               (nth_error st i).
Proof. unfold handleMappingChange. apply nth_error_map. Qed.

Lemma In_handleMappingChange s t st m' :
  In m' (handleMappingChange s t st)
  <-> exists m, In m st
                /\ m' = (if String.eqb (csvColumn m) s
                         then mkMapping (csvColumn m) t else m).
Proof.
  unfold handleMappingChange. rewrite in_map_iff.
  split; intros (m & H1 & H2); exists m; [now split|now split].
Qed.

Lemma truthy_true s : truthy s = true <-> s <> "".
Proof. destruct s; simpl; split; congruence. Qed.

Lemma removeButton_unmapped st X : ~ mappedTo st X -> removeButton st X = None.
Proof.
  intros H. unfold removeButton.
  destruct (isSystemColumnMapped st X) eqn:E; [|reflexivity].
  elim H. now apply isSystemColumnMapped_true.
Qed.

(** The button carries the name of the first entry whose target is [X] *)
Lemma removeButton_mapped st X :
  mappedTo st X ->
  (forall m, In m st -> systemColumn m = Col X -> csvColumn m <> "") ->
  exists m0, In m0 st /\ systemColumn m0 = Col X
             /\ removeButton st X = Some (csvColumn m0).
Proof.
  intros Hm Hne. unfold removeButton, getMappedCsvColumn.
  apply isSystemColumnMapped_true in Hm. rewrite Hm.
  destruct (find (fun m => strictEq (systemColumn m) X) st) as [m0|] eqn:Ef.
  - apply find_some in Ef. destruct Ef as [Hin Heq].
    apply strictEq_true in Heq. exists m0. split; [exact Hin|].
    split; [exact Heq|].
    now rewrite (proj2 (truthy_true _) (Hne m0 Hin Heq)).
  - unfold isSystemColumnMapped in Hm. apply existsb_exists in Hm.
    destruct Hm as (m & Hin & Heq).
    rewrite (find_none _ _ Ef m Hin) in Heq. discriminate.
Qed.

Lemma cleared_not_mapped st X s :
  (forall m, In m st -> systemColumn m = Col X -> csvColumn m = s) ->
  ~ mappedTo (handleMappingChange s Null st) X.
Proof.
  intros Hone (m' & Hin & Ht).
  apply In_handleMappingChange in Hin. destruct Hin as (m & Hm & ->).
  destruct (String.eqb (csvColumn m) s) eqn:E; [discriminate Ht|].
  apply String.eqb_neq in E. apply E. now apply Hone.
Qed.

Lemma entriesFor_count_occ col st :
  entriesFor col st = count_occ string_dec (map csvColumn st) col.
Proof.
  unfold entriesFor. induction st as [|m r IH]; simpl; [reflexivity|].
  destruct (string_dec (csvColumn m) col) as [e|n].
  - rewrite (proj2 (String.eqb_eq _ _) e). simpl. now rewrite IH.
  - rewrite (proj2 (String.eqb_neq _ _) n). exact IH.
Qed.

End Mutation.

(** C6: [handleMappingChange s t] keeps the source columns of the state and
    their order, gives every entry for [s] the target [t] and leaves every
    entry for another source column as it was; nothing in it compares [t]
    with the targets of the other entries, so an entry for another source
    column that already has target [t] stays beside the new one. *)
Theorem C6_setMapping_frame (state : list ColumnMapping) (s : string)
    (t : Target) :
  In s (map csvColumn state) ->
  map csvColumn (handleMappingChange s t state) = map csvColumn state
  /\ (forall i m, nth_error state i = Some m -> csvColumn m = s ->
        nth_error (handleMappingChange s t state) i = Some (mkMapping s t))
  /\ (forall i m, nth_error state i = Some m -> csvColumn m <> s ->
        nth_error (handleMappingChange s t state) i = Some m)
  /\ In (mkMapping s t) (handleMappingChange s t state)
  /\ (forall other, In other state -> csvColumn other <> s ->
        systemColumn other = t ->
        In other (handleMappingChange s t state)).
Proof.
  intros Hs. split; [apply csvColumn_handleMappingChange|].
  split; [|split; [|split]].
  - intros i m Hi Hm. rewrite nth_error_handleMappingChange, Hi. simpl.
    now rewrite Hm, String.eqb_refl.
  - intros i m Hi Hm. rewrite nth_error_handleMappingChange, Hi. simpl.
    now rewrite (proj2 (String.eqb_neq _ _) Hm).
  - apply in_map_iff in Hs. destruct Hs as (m & Hm & Hin).
    apply In_handleMappingChange. exists m. split; [exact Hin|].
    now rewrite Hm, String.eqb_refl.
  - intros other Hin Hne _. apply In_handleMappingChange.
    exists other. split; [exact Hin|].
    now rewrite (proj2 (String.eqb_neq _ _) Hne).
Qed.

(** Mapping col2 to in_dt while col1 already holds it *)
Lemma C6_setMapping_witness :
  In (mkMapping "col2" (Col in_dt))
     (handleMappingChange "col2" (Col in_dt)
        [mkMapping "col1" (Col in_dt); mkMapping "col2" Null])
  /\ In (mkMapping "col1" (Col in_dt))
        (handleMappingChange "col2" (Col in_dt)
           [mkMapping "col1" (Col in_dt); mkMapping "col2" Null]).
Proof.
  destruct (C6_setMapping_frame
              [mkMapping "col1" (Col in_dt); mkMapping "col2" Null]
              "col2" (Col in_dt))
    as (_ & _ & _ & Hnew & Hother).
  - simpl. right. left. reflexivity.
  - split; [exact Hnew|].
    apply Hother; [simpl; left; reflexivity | simpl; discriminate | reflexivity].
Defined.

(** C7, as stated, fails: with two source columns mapped to in_dt the remove
    button clears the first one only, and in_dt is still mapped. *)
Lemma C7_second_source_stays_mapped :
  removeMapping [mkMapping "a" (Col in_dt); mkMapping "b" (Col in_dt)] in_dt
  = [mkMapping "a" Null; mkMapping "b" (Col in_dt)]
  /\ ~ In in_dt
        (missingRequired
           (validateMappings
              (removeMapping
                 [mkMapping "a" (Col in_dt); mkMapping "b" (Col in_dt)] in_dt))).
Proof.
  split; [reflexivity|].
  vm_compute. intros [H|[H|[H|[H|[]]]]]; discriminate H.
Qed.

(** C7 (amended): in a state where the entries with target [X] all belong to
    one source column, whose name is not empty, [removeMapping] sets the
    target of that source column to [null] and keeps the source columns of
    the state, after which no entry has target [X] and, for a required [X],
    [validateMappings] reports it missing; when no entry has target [X] the
    state is returned unchanged. *)
Theorem C7_removeMapping (state : list ColumnMapping) (X : SystemColumn) :
  (forall m1 m2, In m1 state -> In m2 state ->
     systemColumn m1 = Col X -> systemColumn m2 = Col X ->
     csvColumn m1 = csvColumn m2) ->
  (forall m, In m state -> systemColumn m = Col X -> csvColumn m <> "") ->
  (~ mappedTo state X -> removeMapping state X = state)
  /\ (forall m, In m state -> systemColumn m = Col X ->
        removeMapping state X = handleMappingChange (csvColumn m) Null state)
  /\ map csvColumn (removeMapping state X) = map csvColumn state
  /\ ~ mappedTo (removeMapping state X) X
  /\ (In X getRequiredColumns ->
      In X (missingRequired (validateMappings (removeMapping state X)))
      /\ valid (validateMappings (removeMapping state X)) = false).
Proof.
  intros Hone Hne.
  assert (Hun : ~ mappedTo state X -> removeMapping state X = state).
  { intros H. unfold removeMapping. now rewrite removeButton_unmapped. }
  assert (Hrm : forall m, In m state -> systemColumn m = Col X ->
            removeMapping state X = handleMappingChange (csvColumn m) Null state).
  { intros m Hin Ht.
    destruct (removeButton_mapped state X) as (m0 & Hin0 & Ht0 & Hb);
      [now exists m | exact Hne |].
    unfold removeMapping. rewrite Hb. now rewrite (Hone m m0). }
  assert (Hgone : ~ mappedTo (removeMapping state X) X).
  { destruct (isSystemColumnMapped state X) eqn:E.
    - apply isSystemColumnMapped_true in E. destruct E as (m & Hin & Ht).
      rewrite (Hrm m Hin Ht). apply cleared_not_mapped.
      intros m' Hin' Ht'. now apply Hone.
    - assert (Hn : ~ mappedTo state X)
        by (rewrite <- isSystemColumnMapped_true, E; discriminate).
      now rewrite (Hun Hn). }
  split; [exact Hun|]. split; [exact Hrm|].
  split; [apply csvColumn_removeMapping|]. split; [exact Hgone|].
  intros Hreq.
  assert (Hmiss : In X (missingRequired (validateMappings (removeMapping state X))))
    by (apply In_missingRequired; now split).
  split; [exact Hmiss|].
  apply Bool.not_true_iff_false. intros Hv.
  apply valid_missingRequired in Hv. rewrite Hv in Hmiss. contradiction.
Qed.

(** Removing in_dt from a state where "fecha" holds it *)
Lemma C7_removeMapping_witness :
  removeMapping [mkMapping "fecha" (Col in_dt); mkMapping "cantidad" (Col in_quantity)]
    in_dt
  = handleMappingChange "fecha" Null
      [mkMapping "fecha" (Col in_dt); mkMapping "cantidad" (Col in_quantity)]
  /\ In in_dt
        (missingRequired
           (validateMappings
              (removeMapping
                 [mkMapping "fecha" (Col in_dt);
                  mkMapping "cantidad" (Col in_quantity)] in_dt))).
Proof.
  destruct (C7_removeMapping
              [mkMapping "fecha" (Col in_dt); mkMapping "cantidad" (Col in_quantity)]
              in_dt)
    as (_ & Hrm & _ & _ & Hmiss).
  - intros m1 m2 [<-|[<-|[]]] [<-|[<-|[]]]; simpl; congruence.
  - intros m [<-|[<-|[]]]; simpl; congruence.
  - split.
    + apply (Hrm (mkMapping "fecha" (Col in_dt))); [simpl; now left|reflexivity].
    + apply Hmiss. simpl. now left.
Defined.

(** ** Notification *)

(** C8 at a throwing [onMappingChange]: the transition is committed whatever
    the callbacks do, but the effect that notifies them completes by the
    very throw of the callback, on mount as after every later transition;
    and when [onValidationChange] throws, [onMappingChange] is not called
    at all. *)
Theorem C8_callback_throw_propagates :
  (forall cb update mappings, fst (commit cb update mappings) = update mappings)
  /\ notifyEffect (mkCallbacks throwingCallback None) (initialState scenarioA None)
     = ([MappingChanged (initialState scenarioA None)], Throw "Callback error")
  /\ (forall update mappings,
        snd (commit (mkCallbacks throwingCallback None) update mappings)
        = ([MappingChanged (update mappings)], Throw "Callback error"))
  /\ (forall onMapping error update mappings,
        snd (commit (mkCallbacks onMapping (Some (fun _ => Throw error)))
                    update mappings)
        = ([ValidationChanged (valid (validateMappings (update mappings)))],
           Throw error)).
Proof. repeat split. Qed.

(** ** Entries of the state *)

(** C9, as stated, fails: a header given twice gets two entries. *)
Lemma C9_repeated_header_two_entries :
  entriesFor "a" (applyActions [] (initialize ["a"; "a"] None)) <> 1.
Proof. vm_compute. discriminate. Qed.

(** C9 (amended): when the seed, if there is a non-empty one, lists the
    source columns in input order, then after [initialize] and any sequence
    of [SetMapping] and [RemoveMapping] actions the source columns of the
    entries are the input sequence itself: one entry per input position, a
    repeated header having as many entries as it has positions; hence one
    entry per distinct source column when no header is repeated. *)
Theorem C9_one_entry_per_input_position (cols : list string)
    (seed : option (list ColumnMapping)) (acts : list Action) :
  seedFollows cols seed ->
  map csvColumn (applyActions acts (initialize cols seed)) = cols
  /\ (forall col, entriesFor col (applyActions acts (initialize cols seed))
                  = count_occ string_dec cols col)
  /\ (NoDup cols ->
      forall col, In col cols ->
        entriesFor col (applyActions acts (initialize cols seed)) = 1).
Proof.
  intros Hseed.
  assert (Hcsv : map csvColumn (applyActions acts (initialize cols seed)) = cols)
    by (rewrite csvColumn_applyActions; now apply csvColumn_initialize).
  split; [exact Hcsv|]. split.
  - intros col. now rewrite entriesFor_count_occ, Hcsv.
  - intros Hnd col Hin. rewrite entriesFor_count_occ, Hcsv.
    now apply (proj1 (NoDup_count_occ' string_dec cols) Hnd).
Qed.

(** Scenario A, then a change of "producto" and the removal of in_dt *)
Lemma C9_one_entry_witness :
  map csvColumn
      (applyActions [SetMapping "producto" Null; RemoveMapping in_dt]
                    (initialize scenarioA None))
  = scenarioA
  /\ entriesFor "fecha"
       (applyActions [SetMapping "producto" Null; RemoveMapping in_dt]
                     (initialize scenarioA None)) = 1.
Proof.
  destruct (C9_one_entry_per_input_position scenarioA None
              [SetMapping "producto" Null; RemoveMapping in_dt] I)
    as (Hcsv & _ & Hone).
  split; [exact Hcsv|].
  apply Hone.
  - unfold scenarioA.
    repeat (constructor; [simpl; intuition discriminate|]). constructor.
  - simpl. now left.
Defined.

(** * Further properties *)

(** ** Schema registry *)

Section Registry.

Lemma SystemColumn_eq_dec (a b : SystemColumn) : {a = b} + {a <> b}.
Proof. decide equality. Defined.

Lemma memb_In (c : SystemColumn) (l : list SystemColumn) :
  memb c l = true <-> In c l.
Proof.
  unfold memb. rewrite existsb_exists. split.
  - intros (x & Hx & E). apply SystemColumn_eqb_eq in E. now subst.
  - intros H. exists c. split; [exact H|]. now apply SystemColumn_eqb_eq.
Qed.

Lemma memb_false_In (c : SystemColumn) (l : list SystemColumn) :
  memb c l = false <-> ~ In c l.
Proof. rewrite <- memb_In. symmetry. apply Bool.not_true_iff_false. Qed.

End Registry.

(** Every system column has one entry in [COLUMN_SCHEMA], so the lookup
    [COLUMN_SCHEMA[col]] of the panel never misses; the required and the
    optional columns split the system columns in two, each column being
    listed once, and every inferable column is an optional one. *)
Theorem registry_partition (c : SystemColumn) :
  (exists spec, schemaEntry c = Some spec)
  /\ count_occ SystemColumn_eq_dec (map fst COLUMN_SCHEMA) c = 1
  /\ count_occ SystemColumn_eq_dec (getRequiredColumns ++ getOptionalColumns) c = 1
  /\ (In c getRequiredColumns <-> ~ In c getOptionalColumns)
  /\ (In c getInferableColumns -> In c getOptionalColumns).
Proof.
  split; [destruct c; eexists; reflexivity|].
  split; [destruct c; reflexivity|].
  split; [destruct c; reflexivity|].
  split.
  - rewrite <- memb_In, <- memb_false_In.
    destruct c; vm_compute; split; congruence.
  - rewrite <- !memb_In. destruct c; vm_compute; congruence.
Qed.

(** The cost columns are inferable, hence optional; the date is required. *)
Lemma registry_partition_witness :
  In in_cost_unit getOptionalColumns /\ ~ In in_dt getOptionalColumns.
Proof.
  destruct (registry_partition in_cost_unit) as (_ & _ & _ & _ & Hinf).
  destruct (registry_partition in_dt) as (_ & _ & _ & [Hreq _] & _).
  split.
  - apply Hinf. simpl. tauto.
  - apply Hreq. simpl. tauto.
Defined.

(** The three option groups of a select (Required, Optional without the
    inferable columns, Inferable) offer every system column exactly once:
    17 options, in groups of 5, 6 and 6. *)
Theorem selectOptions_each_column_once (c : SystemColumn) :
  count_occ SystemColumn_eq_dec selectOptions c = 1
  /\ List.length selectOptions = 17
  /\ List.length getRequiredColumns = 5
  /\ List.length optionalOnly = 6
  /\ List.length getInferableColumns = 6.
Proof. repeat split; destruct c; reflexivity. Qed.

(** ** Composition of mapping changes *)

Section Composition.

Lemma handleMappingChange_absent s t st :
  ~ In s (map csvColumn st) -> handleMappingChange s t st = st.
Proof.
  intros H. unfold handleMappingChange. rewrite <- (map_id st) at 2.
  apply map_ext_in. intros m Hm.
  destruct (String.eqb (csvColumn m) s) eqn:E; [|reflexivity].
  apply String.eqb_eq in E. elim H. rewrite <- E. now apply in_map.
Qed.

Lemma handleMappingChange_overwrite s t1 t2 st :
  handleMappingChange s t2 (handleMappingChange s t1 st)
  = handleMappingChange s t2 st.
Proof.
  unfold handleMappingChange. rewrite map_map. apply map_ext. intros m.
  destruct (String.eqb (csvColumn m) s) eqn:E; simpl; now rewrite E.
Qed.

Lemma handleMappingChange_commute s1 s2 t1 t2 st :
  s1 <> s2 ->
  handleMappingChange s1 t1 (handleMappingChange s2 t2 st)
  = handleMappingChange s2 t2 (handleMappingChange s1 t1 st).
Proof.
  intros Hne. unfold handleMappingChange. rewrite !map_map. apply map_ext.
  intros m.
  destruct (String.eqb (csvColumn m) s1) eqn:E1;
    destruct (String.eqb (csvColumn m) s2) eqn:E2; simpl;
    rewrite ?E1, ?E2; try reflexivity.
  apply String.eqb_eq in E1, E2. congruence.
Qed.

Lemma handleMappingChange_unchanged_targets s st :
  (forall m, In m st -> csvColumn m = s -> systemColumn m = Null) ->
  handleMappingChange s Null st = st.
Proof.
  intros H. unfold handleMappingChange. rewrite <- (map_id st) at 2.
  apply map_ext_in. intros m Hm.
  destruct (String.eqb (csvColumn m) s) eqn:E; [|reflexivity].
  apply String.eqb_eq in E. specialize (H m Hm E).
  destruct m as [n t]. simpl in *. now subst.
Qed.

End Composition.

(** Changes of one source column overwrite each other, the last one
    deciding, and changes of two different source columns commute. *)
Theorem handleMappingChange_compose (st : list ColumnMapping)
    (s1 s2 : string) (t1 t2 : Target) :
  s1 <> s2 ->
  handleMappingChange s1 t2 (handleMappingChange s1 t1 st)
  = handleMappingChange s1 t2 st
  /\ handleMappingChange s1 t1 (handleMappingChange s2 t2 st)
     = handleMappingChange s2 t2 (handleMappingChange s1 t1 st).
Proof.
  intros Hne. split;
    [apply handleMappingChange_overwrite | now apply handleMappingChange_commute].
Qed.

Lemma handleMappingChange_compose_witness :
  handleMappingChange "a" (Col in_dt)
    (handleMappingChange "b" (Col in_quantity) [mkMapping "a" Null; mkMapping "b" Null])
  = handleMappingChange "b" (Col in_quantity)
      (handleMappingChange "a" (Col in_dt) [mkMapping "a" Null; mkMapping "b" Null]).
Proof.
  destruct (handleMappingChange_compose [mkMapping "a" Null; mkMapping "b" Null]
              "a" "b" (Col in_dt) (Col in_quantity)) as [_ Hcomm].
  - discriminate.
  - exact Hcomm.
Defined.

(** ** The select of a source column *)

Section Select.

Lemma currentTarget_set s t st :
  In s (map csvColumn st) ->
  currentTarget (handleMappingChange s t st) s = Some t.
Proof.
  unfold currentTarget, handleMappingChange.
  induction st as [|m r IH]; simpl; [contradiction|].
  intros Hin. destruct (String.eqb (csvColumn m) s) eqn:E; simpl.
  - now rewrite E.
  - rewrite E. apply IH. destruct Hin as [Hm|Hr]; [|exact Hr].
    apply String.eqb_neq in E. contradiction.
Qed.

Lemma currentTarget_other s s' t st :
  s' <> s ->
  currentTarget (handleMappingChange s t st) s' = currentTarget st s'.
Proof.
  intros Hne. unfold currentTarget, handleMappingChange.
  induction st as [|m r IH]; simpl; [reflexivity|].
  destruct (String.eqb (csvColumn m) s) eqn:E; simpl.
  - apply String.eqb_eq in E.
    assert (E' : String.eqb (csvColumn m) s' = false)
      by (apply String.eqb_neq; congruence).
    rewrite E'. exact IH.
  - destruct (String.eqb (csvColumn m) s'); [reflexivity|exact IH].
Qed.

Lemma currentTarget_absent s st :
  ~ In s (map csvColumn st) -> currentTarget st s = None.
Proof.
  intros H. unfold currentTarget.
  destruct (find (fun m => String.eqb (csvColumn m) s) st) as [m|] eqn:E;
    [|reflexivity].
  apply find_some in E. destruct E as [Hin Heq].
  apply String.eqb_eq in Heq. elim H. rewrite <- Heq. now apply in_map.
Qed.

(** An option that is not disabled: the column is free, or it is the one the
    first entry of the source column holds. *)
Lemma enabled_option st csv c :
  optionDisabled st csv c = false ->
  ~ mappedTo st c
  \/ exists m0, In m0 st /\ csvColumn m0 = csv /\ systemColumn m0 = Col c.
Proof.
  unfold optionDisabled, currentTarget. intros H.
  apply Bool.andb_false_iff in H. destruct H as [H|H].
  - left. rewrite <- isSystemColumnMapped_true, H. discriminate.
  - right.
    destruct (find (fun m => String.eqb (csvColumn m) csv) st) as [m0|] eqn:E;
      simpl in H; [|discriminate H].
    apply find_some in E. destruct E as [Hin Heq].
    apply String.eqb_eq in Heq. apply Bool.negb_false_iff in H.
    apply strictEq_true in H. now exists m0.
Qed.

Lemma sourcesAgree_set st csv c :
  sourcesAgree st -> optionDisabled st csv c = false ->
  sourcesAgree (handleMappingChange csv (Col c) st).
Proof.
  intros Hag Hen m1' m2' c' Hin1 Hin2 Ht1 Ht2.
  apply In_handleMappingChange in Hin1, Hin2.
  destruct Hin1 as (m1 & Hm1 & ->). destruct Hin2 as (m2 & Hm2 & ->).
  assert (Hmix : forall ma mb, In ma st -> In mb st ->
            csvColumn ma = csv -> csvColumn mb <> csv ->
            systemColumn mb = Col c -> False).
  { intros ma mb Ha Hb Ea Eb Tb.
    destruct (enabled_option st csv c Hen) as [Hfree|(m0 & H0 & E0 & T0)].
    - apply Hfree. now exists mb.
    - apply Eb. rewrite <- E0. now apply (Hag mb m0 c). }
  destruct (String.eqb (csvColumn m1) csv) eqn:E1;
    destruct (String.eqb (csvColumn m2) csv) eqn:E2; simpl in *.
  - apply String.eqb_eq in E1, E2. congruence.
  - apply String.eqb_eq in E1. apply String.eqb_neq in E2.
    injection Ht1 as <-. exfalso. now apply (Hmix m1 m2).
  - apply String.eqb_neq in E1. apply String.eqb_eq in E2.
    injection Ht2 as <-. exfalso. now apply (Hmix m2 m1).
  - now apply (Hag m1 m2 c').
Qed.

Lemma sourcesAgree_clear st csv :
  sourcesAgree st -> sourcesAgree (handleMappingChange csv Null st).
Proof.
  intros Hag m1' m2' c' Hin1 Hin2 Ht1 Ht2.
  apply In_handleMappingChange in Hin1, Hin2.
  destruct Hin1 as (m1 & Hm1 & ->). destruct Hin2 as (m2 & Hm2 & ->).
  destruct (String.eqb (csvColumn m1) csv); [discriminate Ht1|].
  destruct (String.eqb (csvColumn m2) csv); [discriminate Ht2|].
  now apply (Hag m1 m2 c').
Qed.

Lemma sourcesAgree_remove st X :
  sourcesAgree st -> sourcesAgree (removeMapping st X).
Proof.
  intros Hag. unfold removeMapping.
  destruct (removeButton st X); [now apply sourcesAgree_clear|exact Hag].
Qed.

End Select.

(** After a change of the source column [s] its select shows the new
    target, and the select of every other source column shows what it
    showed; for a source column that has no entry in the state the change
    does nothing and the select stays on "Not mapped". *)
Theorem select_shows_last_choice (st : list ColumnMapping) (s : string)
    (t : Target) :
  (In s (map csvColumn st) ->
     currentTarget (handleMappingChange s t st) s = Some t)
  /\ (~ In s (map csvColumn st) ->
        handleMappingChange s t st = st /\ currentTarget st s = None)
  /\ (forall s', s' <> s ->
        currentTarget (handleMappingChange s t st) s' = currentTarget st s').
Proof.
  split; [apply currentTarget_set|]. split.
  - intros H. split; [now apply handleMappingChange_absent
                     |now apply currentTarget_absent].
  - intros s' H. now apply currentTarget_other.
Qed.

Lemma select_shows_last_choice_witness :
  currentTarget
    (handleMappingChange "qty" (Col in_quantity)
       [mkMapping "date" (Col in_dt); mkMapping "qty" Null]) "qty"
  = Some (Col in_quantity)
  /\ currentTarget
       (handleMappingChange "qty" (Col in_quantity)
          [mkMapping "date" (Col in_dt); mkMapping "qty" Null]) "date"
     = Some (Col in_dt)
  /\ handleMappingChange "price" (Col in_price_total)
       [mkMapping "date" (Col in_dt); mkMapping "qty" Null]
     = [mkMapping "date" (Col in_dt); mkMapping "qty" Null].
Proof.
  destruct (select_shows_last_choice
              [mkMapping "date" (Col in_dt); mkMapping "qty" Null]
              "qty" (Col in_quantity)) as (Hset & _ & Hother).
  destruct (select_shows_last_choice
              [mkMapping "date" (Col in_dt); mkMapping "qty" Null]
              "price" (Col in_price_total)) as (_ & Habsent & _).
  split; [apply Hset; simpl; tauto|].
  split; [rewrite Hother; [reflexivity|discriminate]|].
  apply Habsent. simpl. intros [H|[H|[]]]; discriminate H.
Defined.

(** Injectivity through the selection surface: when the entries that share
    a target all belong to one source column, this still holds after any
    run of actions in which every select change picks "Not mapped" or an
    option that is not disabled, removals included. *)
Theorem selectable_actions_keep_sources_apart (acts : list Action)
    (st : list ColumnMapping) :
  sourcesAgree st -> allSelectable acts st = true ->
  sourcesAgree (applyActions acts st).
Proof.
  unfold applyActions. revert st.
  induction acts as [|a rest IH]; intros st Hag Hsel; simpl; [exact Hag|].
  simpl in Hsel. apply Bool.andb_true_iff in Hsel. destruct Hsel as [Ha Hrest].
  apply IH; [|exact Hrest].
  destruct a as [csv [|c|n]|X]; simpl.
  - now apply sourcesAgree_clear.
  - apply sourcesAgree_set; [exact Hag|]. now apply Bool.negb_true_iff.
  - discriminate Ha.
  - now apply sourcesAgree_remove.
Qed.

Lemma selectable_actions_witness :
  sourcesAgree
    (applyActions
       [SetMapping "a" (Col in_dt); SetMapping "b" (Col in_quantity);
        RemoveMapping in_dt; SetMapping "b" (Col in_dt)]
       [mkMapping "a" Null; mkMapping "b" Null]).
Proof.
  apply selectable_actions_keep_sources_apart.
  - intros m1 m2 c [<-|[<-|[]]] _ H; discriminate H.
  - vm_compute. reflexivity.
Defined.

(** The suggestions do not keep source columns apart: two different headers
    of the input that get the same suggested column both hold it in the
    state after mounting without a seed. *)
Theorem suggestions_may_share_a_target (cols : list string) (s1 s2 : string)
    (c : SystemColumn) :
  In s1 cols -> In s2 cols -> s1 <> s2 ->
  suggestMapping s1 = Col c -> suggestMapping s2 = Col c ->
  In (mkMapping s1 (Col c)) (initialize cols None)
  /\ In (mkMapping s2 (Col c)) (initialize cols None)
  /\ ~ sourcesAgree (initialize cols None).
Proof.
  intros H1 H2 Hne E1 E2.
  assert (I1 : In (mkMapping s1 (Col c)) (initialize cols None)).
  { rewrite initialize_unseeded, <- E1.
    now apply (in_map (fun col => mkMapping col (suggestMapping col))). }
  assert (I2 : In (mkMapping s2 (Col c)) (initialize cols None)).
  { rewrite initialize_unseeded, <- E2.
    now apply (in_map (fun col => mkMapping col (suggestMapping col))). }
  split; [exact I1|]. split; [exact I2|].
  intros Hag. apply Hne. now apply (Hag _ _ c I1 I2).
Qed.

Lemma suggestions_may_share_witness :
  ~ sourcesAgree (initialize ["date"; "fecha"] None).
Proof.
  apply (suggestions_may_share_a_target ["date"; "fecha"] "date" "fecha" in_dt);
    [simpl; tauto | simpl; tauto | discriminate | reflexivity | reflexivity].
Defined.

(** ** The schema panel *)

Section Panel.

Lemma getMappedCsvColumn_some st c s :
  getMappedCsvColumn st c = Some s ->
  s <> "" /\ In (mkMapping s (Col c)) st.
Proof.
  unfold getMappedCsvColumn.
  destruct (find (fun m => strictEq (systemColumn m) c) st) as [m|] eqn:E;
    [|discriminate].
  apply find_some in E. destruct E as [Hin Heq]. apply strictEq_true in Heq.
  destruct (truthy (csvColumn m)) eqn:T; [|discriminate].
  intros [= <-]. split; [now apply truthy_true|].
  destruct m as [n t]. simpl in *. now subst t.
Qed.

Lemma getMappedCsvColumn_after_set st s c :
  s <> "" -> In s (map csvColumn st) -> isSystemColumnMapped st c = false ->
  getMappedCsvColumn (handleMappingChange s (Col c) st) c = Some s.
Proof.
  intros Hne Hin Hfree. unfold getMappedCsvColumn.
  destruct (find (fun m => strictEq (systemColumn m) c)
              (handleMappingChange s (Col c) st)) as [m'|] eqn:E.
  - apply find_some in E. destruct E as [Hin' Heq].
    apply strictEq_true in Heq.
    apply In_handleMappingChange in Hin'. destruct Hin' as (m & Hm & ->).
    destruct (String.eqb (csvColumn m) s) eqn:Es; simpl in *.
    + apply String.eqb_eq in Es. rewrite Es.
      now rewrite (proj2 (truthy_true s) Hne).
    + exfalso. apply Bool.not_true_iff_false in Hfree. apply Hfree.
      apply isSystemColumnMapped_true. now exists m.
  - exfalso. apply in_map_iff in Hin. destruct Hin as (m & Hm & Hin).
    assert (Hin' : In (mkMapping s (Col c)) (handleMappingChange s (Col c) st)).
    { apply In_handleMappingChange. exists m. split; [exact Hin|].
      now rewrite Hm, String.eqb_refl. }
    pose proof (find_none _ _ E _ Hin') as Hf. simpl in Hf.
    now rewrite (proj2 (SystemColumn_eqb_eq c c) eq_refl) in Hf.
Qed.

Lemma mapped_after_set st s c :
  In s (map csvColumn st) ->
  isSystemColumnMapped (handleMappingChange s (Col c) st) c = true.
Proof.
  intros Hin. apply isSystemColumnMapped_true.
  apply in_map_iff in Hin. destruct Hin as (m & Hm & Hin).
  exists (mkMapping s (Col c)). split; [|reflexivity].
  apply In_handleMappingChange. exists m. split; [exact Hin|].
  now rewrite Hm, String.eqb_refl.
Qed.

End Panel.

(** What the panel shows beside a system column is the non-empty name of an
    entry that holds this column. *)
Theorem getMappedCsvColumn_sound (st : list ColumnMapping) (c : SystemColumn)
    (s : string) :
  getMappedCsvColumn st c = Some s ->
  s <> "" /\ In (mkMapping s (Col c)) st /\ isSystemColumnMapped st c = true.
Proof.
  intros H. destruct (getMappedCsvColumn_some st c s H) as [Hne Hin].
  split; [exact Hne|]. split; [exact Hin|].
  apply isSystemColumnMapped_true. now exists (mkMapping s (Col c)).
Qed.

Lemma getMappedCsvColumn_sound_witness :
  In (mkMapping "fecha" (Col in_dt))
     [mkMapping "id" Null; mkMapping "fecha" (Col in_dt)].
Proof.
  apply (getMappedCsvColumn_sound
           [mkMapping "id" Null; mkMapping "fecha" (Col in_dt)] in_dt "fecha").
  reflexivity.
Defined.

(** Choosing a free system column for a source column with a non-empty name
    makes the panel show this source column beside it and takes the column
    off the missing ones; the remove button then clears the source column,
    which gives the state back when the source column was unmapped before. *)
Theorem select_then_remove (st : list ColumnMapping) (s : string)
    (c : SystemColumn) :
  s <> "" -> In s (map csvColumn st) -> isSystemColumnMapped st c = false ->
  getMappedCsvColumn (onSelectChange s (Some c) st) c = Some s
  /\ ~ In c (missingRequired (validateMappings (onSelectChange s (Some c) st)))
  /\ removeMapping (onSelectChange s (Some c) st) c
     = handleMappingChange s Null st
  /\ ((forall m, In m st -> csvColumn m = s -> systemColumn m = Null) ->
      removeMapping (onSelectChange s (Some c) st) c = st).
Proof.
  intros Hne Hin Hfree. unfold onSelectChange.
  pose proof (getMappedCsvColumn_after_set st s c Hne Hin Hfree) as Hget.
  pose proof (mapped_after_set st s c Hin) as Hmapped.
  assert (Hrm : removeMapping (handleMappingChange s (Col c) st) c
                = handleMappingChange s Null st).
  { unfold removeMapping, removeButton. rewrite Hmapped, Hget.
    apply handleMappingChange_overwrite. }
  split; [exact Hget|]. split; [|split; [exact Hrm|]].
  - intros Hmiss. apply In_missingRequired in Hmiss. destruct Hmiss as [_ Hn].
    apply Hn. now apply isSystemColumnMapped_true.
  - intros Hnull. rewrite Hrm. now apply handleMappingChange_unchanged_targets.
Qed.

Lemma select_then_remove_witness :
  removeMapping
    (onSelectChange "fecha" (Some in_dt) [mkMapping "fecha" Null; mkMapping "x" Null])
    in_dt
  = [mkMapping "fecha" Null; mkMapping "x" Null].
Proof.
  destruct (select_then_remove [mkMapping "fecha" Null; mkMapping "x" Null]
              "fecha" in_dt) as (_ & _ & _ & Hback).
  - discriminate.
  - simpl. tauto.
  - reflexivity.
  - apply Hback. intros m [<-|[<-|[]]] _; reflexivity.
Defined.

(** ** Further properties of the validator *)

Section ValidatorFacts.

Lemma required_targets_NoDup : NoDup (map Col getRequiredColumns).
Proof.
  vm_compute.
  repeat (constructor; [simpl; intuition discriminate|]). constructor.
Qed.

End ValidatorFacts.

(** A valid state has at least as many entries as there are required
    columns, five: with fewer source columns no mapping is valid. *)
Theorem valid_needs_five_entries (st : list ColumnMapping) :
  valid (validateMappings st) = true -> 5 <= List.length st.
Proof.
  intros Hv. pose proof (proj1 (valid_iff st) Hv) as Hall.
  change 5 with (List.length (map Col getRequiredColumns)).
  rewrite <- (length_map systemColumn st).
  apply NoDup_incl_length; [apply required_targets_NoDup|].
  intros t Ht. apply in_map_iff in Ht. destruct Ht as (c & <- & Hc).
  destruct (Hall c Hc) as (m & Hm & Hmt). rewrite <- Hmt. now apply in_map.
Qed.

Lemma valid_needs_five_entries_witness :
  5 <= List.length
         [ mkMapping "date" (Col in_dt); mkMapping "trans" (Col in_trans_id);
           mkMapping "prod" (Col in_product_id);
           mkMapping "qty" (Col in_quantity);
           mkMapping "price" (Col in_price_total) ].
Proof.
  apply valid_needs_five_entries. reflexivity.
Defined.

(** The validator looks at the set of targets only: a state that maps every
    system column another state maps misses no more required columns than
    that one, in the same order, and is valid when that one is. Reordering
    or adding entries are instances. *)
Theorem validate_monotone (st st' : list ColumnMapping) :
  (forall c, mappedTo st c -> mappedTo st' c) ->
  incl (missingRequired (validateMappings st'))
       (missingRequired (validateMappings st))
  /\ (valid (validateMappings st) = true -> valid (validateMappings st') = true)
  /\ missingRequired (validateMappings st')
     = filter (fun c => negb (isSystemColumnMapped st' c))
         (missingRequired (validateMappings st)).
Proof.
  intros Hsub. split; [|split].
  - intros c Hc. apply In_missingRequired in Hc. destruct Hc as [Hr Hn].
    apply In_missingRequired. split; [exact Hr|]. intros H. apply Hn.
    now apply Hsub.
  - rewrite !valid_iff. intros Hv c Hc. apply Hsub. now apply Hv.
  - rewrite !missingRequired_filter.
    generalize getRequiredColumns. intros l.
    induction l as [|x l IH]; simpl; [reflexivity|].
    destruct (isSystemColumnMapped st x) eqn:E; simpl.
    + assert (E' : isSystemColumnMapped st' x = true)
        by (apply isSystemColumnMapped_true, Hsub;
            now apply isSystemColumnMapped_true).
      rewrite E'. simpl. exact IH.
    + destruct (isSystemColumnMapped st' x); simpl; now rewrite IH.
Qed.

Lemma validate_monotone_witness :
  incl (missingRequired
          (validateMappings [mkMapping "q" (Col in_quantity); mkMapping "d" (Col in_dt)]))
       (missingRequired (validateMappings [mkMapping "d" (Col in_dt)])).
Proof.
  apply (validate_monotone [mkMapping "d" (Col in_dt)]
           [mkMapping "q" (Col in_quantity); mkMapping "d" (Col in_dt)]).
  intros c (m & [<-|[]] & Hm). exists (mkMapping "d" (Col in_dt)).
  split; [simpl; tauto|exact Hm].
Defined.

(** ** Normal forms and the synonym table *)

Section NormalForms.

Lemma toLowerCaseChar_fixed (c : ascii) :
  isUpperCase (nat_of_ascii c) = false -> toLowerCaseChar c = c.
Proof. unfold toLowerCaseChar. cbv zeta. now intros ->. Qed.

Lemma normalize_fixes_normalized (s : string) :
  isNormalized s = true -> normalize s = s.
Proof.
  unfold normalize. induction s as [|c r IH]; simpl; [reflexivity|].
  intros H. apply Bool.andb_true_iff in H. destruct H as [H Hr].
  apply Bool.andb_true_iff in H. destruct H as [Hu Hs].
  apply Bool.negb_true_iff in Hu, Hs.
  rewrite (toLowerCaseChar_fixed c Hu), Hs. f_equal. now apply IH.
Qed.

Lemma suggestions_keys_effective :
  forallb (fun e => match ownProperty suggestions (fst e) with
                    | Some c => SystemColumn_eqb c (snd e)
                    | None => false
                    end && isNormalized (fst e)) suggestions = true.
Proof. vm_compute. reflexivity. Qed.

End NormalForms.

(** Among the strings of code units below 256, [normalize] leaves unchanged
    exactly those without a capital letter and without a separator. *)
Theorem normalize_fixed_points (s : string) :
  normalize s = s <-> isNormalized s = true.
Proof.
  split; [|apply normalize_fixes_normalized].
  intros H. rewrite <- H. apply normalize_isNormalized.
Qed.

Lemma normalize_fixed_points_witness :
  normalize "idproducto" = "idproducto".
Proof.
  destruct (normalize_fixed_points "idproducto") as [_ Hfix].
  apply Hfix. reflexivity.
Defined.

(** No entry of the synonym table is dead: its key is in normal form and is
    no key of an earlier entry, so the key itself, and every header that
    normalizes to it, gets the column of the entry. *)
Theorem synonym_reached (k : string) (c : SystemColumn) (s : string) :
  In (k, c) suggestions -> normalize s = k ->
  suggestMapping s = Col c /\ suggestMapping k = Col c /\ normalize k = k.
Proof.
  intros Hin Hs.
  pose proof (proj1 (forallb_forall _ _) suggestions_keys_effective _ Hin) as H.
  cbn [fst snd] in H. apply Bool.andb_true_iff in H. destruct H as [Ho Hn].
  destruct (ownProperty suggestions k) as [c'|] eqn:E; [|discriminate Ho].
  apply SystemColumn_eqb_eq in Ho. subst c'.
  pose proof (normalize_fixes_normalized k Hn) as Hk.
  assert (Hsug : forall x, normalize x = k -> suggestMapping x = Col c).
  { intros x Hx. unfold suggestMapping, getProperty. cbv zeta.
    now rewrite Hx, E. }
  split; [now apply Hsug|]. split; [now apply Hsug|exact Hk].
Qed.

Lemma synonym_reached_witness :
  suggestMapping "Trans-ID" = Col in_trans_id.
Proof.
  apply (synonym_reached "transid" in_trans_id "Trans-ID");
    [simpl; tauto | reflexivity].
Defined.

(** ** Sections of the panel *)

(** Toggling a section flips it and leaves the other two as they are;
    toggling it again gives the state back, and toggles of two sections
    commute. *)
Theorem toggleSection_involutive (k k' : Sections.Key) (e : Sections.Expanded) :
  Sections.toggleSection k (Sections.toggleSection k e) = e
  /\ Sections.get (Sections.toggleSection k e) k = negb (Sections.get e k)
  /\ (k' <> k ->
      Sections.get (Sections.toggleSection k e) k' = Sections.get e k')
  /\ Sections.toggleSection k (Sections.toggleSection k' e)
     = Sections.toggleSection k' (Sections.toggleSection k e).
Proof.
  destruct e as [r o i].
  split; [destruct k; simpl; now rewrite Bool.negb_involutive|].
  split; [destruct k; reflexivity|].
  split; [|destruct k, k'; reflexivity].
  intros Hne. destruct k, k'; try reflexivity; now elim Hne.
Qed.

Lemma toggleSection_witness :
  Sections.get (Sections.toggleSection Sections.inferable Sections.initial)
               Sections.required = true.
Proof.
  destruct (toggleSection_involutive Sections.inferable Sections.required
              Sections.initial) as (_ & _ & Hframe & _).
  rewrite Hframe; [reflexivity|discriminate].
Defined.

(** ** Password strength and form schemas *)

Section PasswordStrength.

Lemma incr_bounds b n : n <= incr b n <= S n.
Proof. destruct b; simpl; lia. Qed.

Lemma incr_mono b b' n n' :
  (b = true -> b' = true) -> n <= n' -> incr b n <= incr b' n'.
Proof.
  intros Hb Hn. destruct b; simpl.
  - rewrite (Hb eq_refl). simpl. lia.
  - destruct b'; simpl; lia.
Qed.

Lemma strength_score pwd :
  strength (getPasswordStrength pwd) = if truthy pwd then score pwd else 0.
Proof.
  unfold getPasswordStrength, score. destruct (truthy pwd); simpl; [|reflexivity].
  cbv zeta.
  repeat match goal with
  | |- context [if ?b then _ else _] => destruct b; simpl
  end; reflexivity.
Qed.

Lemma label_thresholds pwd :
  truthy pwd = true ->
  label (getPasswordStrength pwd)
  = if score pwd <=? 2 then Debil
    else if score pwd <=? 4 then Media else Fuerte.
Proof.
  intros H. unfold getPasswordStrength, score. rewrite H. simpl. cbv zeta.
  repeat match goal with
  | |- context [if ?b then _ else _] => destruct b; simpl
  end; reflexivity.
Qed.

Lemma score_le_6 pwd : score pwd <= 6.
Proof.
  unfold score.
  repeat match goal with
  | |- context [incr ?b _] => destruct b; cbn [incr]
  end; lia.
Qed.

Lemma class_of_char c :
  isCapital c || isSmall c || isDigit c || isSpecial c = true.
Proof. unfold isSpecial. destruct (isCapital c || isSmall c || isDigit c); reflexivity. Qed.

Lemma score_positive pwd : truthy pwd = true -> 1 <= score pwd.
Proof.
  destruct pwd as [|c r]; [discriminate|]. intros _. unfold score. simpl test.
  pose proof (class_of_char c) as Hc.
  destruct (isCapital c), (isSmall c), (isDigit c), (isSpecial c);
    try discriminate Hc; simpl;
    repeat match goal with
    | |- context [incr ?b _] => destruct b; cbn [incr]
    end; lia.
Qed.

Lemma test_append class s t : test class s = true -> test class (s ++ t) = true.
Proof.
  induction s as [|c r IH]; simpl; [discriminate|].
  destruct (class c); simpl; [reflexivity|exact IH].
Qed.

Lemma length_app_string (s t : string) :
  String.length (s ++ t) = String.length s + String.length t.
Proof. induction s as [|c r IH]; simpl; [reflexivity|now rewrite IH]. Qed.

Lemma score_append s t : score s <= score (s ++ t).
Proof.
  unfold score.
  pose proof (length_app_string s t) as Hl.
  repeat apply incr_mono; try apply test_append; try lia;
    rewrite !Nat.leb_le; lia.
Qed.

Lemma truthy_append s t : truthy s = true -> truthy (s ++ t) = true.
Proof. destruct s; [discriminate|reflexivity]. Qed.

Lemma score_classes pwd :
  score pwd
  = classesIn pwd
    + incr (12 <=? String.length pwd) (incr (8 <=? String.length pwd) 0).
Proof.
  unfold score, classesIn.
  destruct (test isSpecial pwd), (test isDigit pwd), (test isSmall pwd),
    (test isCapital pwd); simpl; lia.
Qed.

Lemma labels_distinct : Debil <> Media /\ Debil <> Fuerte /\ Media <> Fuerte
                        /\ Debil <> "" /\ Media <> "" /\ Fuerte <> "".
Proof. repeat split; discriminate. Qed.

Lemma passwordField_rules pwd :
  passwordField pwd = true ->
  8 <= String.length pwd /\ test isCapital pwd = true
  /\ test isSmall pwd = true /\ test isDigit pwd = true.
Proof.
  unfold passwordField, min. rewrite !Bool.andb_true_iff, !Nat.leb_le. tauto.
Qed.

End PasswordStrength.

(** The strength is at most 6, the maximum the progress bar declares, and it
    is 0 for the empty password only. *)
Theorem strength_range (pwd : string) :
  strength (getPasswordStrength pwd) <= 6
  /\ (strength (getPasswordStrength pwd) = 0 <-> pwd = "").
Proof.
  rewrite strength_score. destruct pwd as [|c r]; simpl.
  - split; [lia|tauto].
  - split; [apply score_le_6|].
    pose proof (score_positive (String c r) eq_refl). split; [lia|discriminate].
Qed.

Lemma strength_range_witness : strength (getPasswordStrength "") = 0.
Proof. apply (strength_range ""). reflexivity. Defined.

(** Typing more never lowers the strength: a password rates at least as high
    as each of its prefixes. *)
Theorem strength_grows_with_typing (s t : string) :
  strength (getPasswordStrength s) <= strength (getPasswordStrength (s ++ t)).
Proof.
  rewrite !strength_score. destruct (truthy s) eqn:E; [|lia].
  rewrite (truthy_append s t E). apply score_append.
Qed.

(** A password that passes the rules of the register and change-password
    forms has strength 4 at least, so the indicator never says "Débil" for
    it; it says "Fuerte" exactly when the password has 12 characters or
    more, or a character that is neither a letter A-Z, a-z nor a digit. *)
Theorem accepted_password_not_weak (pwd : string) :
  passwordField pwd = true ->
  4 <= strength (getPasswordStrength pwd)
  /\ label (getPasswordStrength pwd) <> Debil
  /\ (label (getPasswordStrength pwd) = Fuerte
      <-> 12 <= String.length pwd \/ test isSpecial pwd = true).
Proof.
  intros Hp. destruct (passwordField_rules pwd Hp) as (Hl & Hc & Hs & Hd).
  assert (Ht : truthy pwd = true) by (destruct pwd; [simpl in Hl; lia|reflexivity]).
  rewrite strength_score, (label_thresholds pwd Ht), Ht.
  destruct labels_distinct as (D1 & D2 & D3 & _).
  unfold score. rewrite Hc, Hs, Hd.
  assert (H8 : (8 <=? String.length pwd) = true) by now apply Nat.leb_le.
  rewrite H8.
  destruct (12 <=? String.length pwd) eqn:E12;
    [apply Nat.leb_le in E12|apply Nat.leb_gt in E12];
    destruct (test isSpecial pwd); simpl;
    (split; [lia|]); (split; [congruence|]);
    split; intros H; try reflexivity; try congruence; try tauto;
    try (destruct H as [H|H]; [lia|discriminate]).
Qed.

Lemma accepted_password_witness :
  label (getPasswordStrength "Pass1234") <> Debil.
Proof.
  apply (accepted_password_not_weak "Pass1234"). reflexivity.
Defined.

(** "Fuerte" is given to a password with characters of three or more of the
    four classes (capital, small, digit, other) only. *)
Theorem strong_needs_three_classes (pwd : string) :
  label (getPasswordStrength pwd) = Fuerte -> 3 <= classesIn pwd.
Proof.
  destruct labels_distinct as (D1 & D2 & D3 & D4 & D5 & D6).
  destruct (truthy pwd) eqn:Ht.
  - rewrite (label_thresholds pwd Ht), score_classes.
    pose proof (incr_bounds (12 <=? String.length pwd)
                  (incr (8 <=? String.length pwd) 0)) as H1.
    pose proof (incr_bounds (8 <=? String.length pwd) 0) as H2.
    destruct (_ <=? 2) eqn:E2; [congruence|].
    destruct (_ <=? 4) eqn:E4; [congruence|].
    apply Nat.leb_gt in E4. intros _. lia.
  - unfold getPasswordStrength. rewrite Ht. simpl. congruence.
Qed.

Lemma strong_needs_three_classes_witness : 3 <= classesIn "MyP@ssw0rd!2024".
Proof. apply strong_needs_three_classes. reflexivity. Defined.

Section Schemas.

Lemma min_le n s : min n s = true <-> n <= String.length s.
Proof. unfold min. apply Nat.leb_le. Qed.

Lemma all_testWhole class s :
  testWhole class s = true <-> s <> "" /\ all class s = true.
Proof.
  unfold testWhole. rewrite Bool.andb_true_iff, truthy_true. reflexivity.
Qed.

End Schemas.

(** Data the register form accepts can be used to log in: the login form
    accepts the same e-mail and password, whatever the e-mail check of the
    library is; the confirmation equals the password, and the user name
    has 3 to 30 characters, all of them letters A-Z, a-z, digits or
    underscores. *)
Theorem registered_data_passes_login (isEmail : string -> bool)
    (data : RegisterFormData) :
  registerSchema isEmail data = true ->
  loginSchema isEmail (mkLogin (email data) (password data)) = true
  /\ password_confirm data = password data
  /\ 3 <= String.length (username data) <= 30
  /\ all isWordChar (username data) = true.
Proof.
  unfold registerSchema, loginSchema, usernameField, max. simpl.
  rewrite !Bool.andb_true_iff, String.eqb_eq, !min_le, Nat.leb_le, all_testWhole.
  intros ((((He & ((_ & Hu3) & Hu30) & _ & Hw) & Hp) & _) & Heq).
  destruct (passwordField_rules _ Hp) as (Hl & _).
  rewrite He. repeat split; try lia; try assumption. now symmetry.
Qed.

Lemma registered_data_witness :
  loginSchema (fun _ => true) (mkLogin "test@example.com" "Password123") = true.
Proof.
  apply (registered_data_passes_login (fun _ => true)
           (mkRegister "test@example.com" "testuser" "Password123" "Password123")).
  reflexivity.
Defined.

(** The change-password form accepts exactly the data with a non-empty
    current password, a new password that passes the password rules and
    differs from the current one, and a confirmation equal to the new
    password; the check that the confirmation is not empty decides
    nothing. In particular the current password is never accepted as the
    new one. *)
Theorem changePasswordSchema_accepts (data : ChangePasswordFormData) :
  (changePasswordSchema data = true
   <-> old_password data <> ""
       /\ passwordField (new_password data) = true
       /\ new_password data <> old_password data
       /\ new_password_confirm data = new_password data)
  /\ (new_password data = old_password data -> changePasswordSchema data = false).
Proof.
  unfold changePasswordSchema.
  split.
  - rewrite !Bool.andb_true_iff, Bool.negb_true_iff, String.eqb_eq,
      String.eqb_neq, !min_le.
    split.
    + intros ((((Ho & Hp) & _) & Hne) & Heq).
      split; [destruct (old_password data); [simpl in Ho; lia|discriminate]|].
      repeat split; try assumption. now symmetry.
    + intros (Ho & Hp & Hne & Heq).
      destruct (passwordField_rules _ Hp) as (Hl & _).
      repeat split; try assumption.
      * destruct (old_password data); [now elim Ho|simpl; lia].
      * rewrite Heq. lia.
      * now symmetry.
  - intros ->. rewrite String.eqb_refl. simpl.
    now rewrite Bool.andb_false_r.
Qed.

Lemma changePasswordSchema_witness :
  changePasswordSchema (mkChangePassword "OldPass123" "NewPass456" "NewPass456") = true
  /\ changePasswordSchema (mkChangePassword "SamePass1" "SamePass1" "SamePass1") = false.
Proof.
  destruct (changePasswordSchema_accepts
              (mkChangePassword "OldPass123" "NewPass456" "NewPass456"))
    as [[_ Hacc] _].
  destruct (changePasswordSchema_accepts
              (mkChangePassword "SamePass1" "SamePass1" "SamePass1"))
    as [_ Hsame].
  split.
  - apply Hacc. simpl. repeat split; discriminate.
  - apply Hsame. reflexivity.
Defined.

(** ** Authentication store *)

Section StoreProperties.

Import AuthStore.

Variable Err : Type.
Variable extractErrorMessage : Err -> string.
Variable stringifyTokens : AuthTokens -> string.
Variable stringifyUser : User -> string.
Variable parseTokens : string -> Parse AuthTokens.
Variable parseUser : string -> Parse User.

Local Abbreviation run :=
  (AuthStore.run Err extractErrorMessage stringifyTokens stringifyUser
                 parseTokens parseUser).
Local Abbreviation runAll :=
  (AuthStore.runAll Err extractErrorMessage stringifyTokens stringifyUser
                    parseTokens parseUser).
Local Abbreviation login :=
  (AuthStore.login Err extractErrorMessage stringifyTokens stringifyUser).
Local Abbreviation logout := (AuthStore.logout Err).
Local Abbreviation initializeAuth := (AuthStore.initializeAuth parseTokens parseUser).
Local Abbreviation Action := (AuthStore.Action Err).
Local Abbreviation Call := (AuthStore.Call Err).
Local Abbreviation restoresNoNull := (AuthStore.restoresNoNull parseTokens parseUser).
Local Abbreviation restoresNoNullAlong :=
  (AuthStore.restoresNoNullAlong Err extractErrorMessage stringifyTokens
     stringifyUser parseTokens parseUser).

Lemma sessionComplete_failed msg s :
  sessionComplete s -> sessionComplete (failed msg (loading s)).
Proof. unfold sessionComplete. simpl. tauto. Qed.

Lemma sessionComplete_run a st :
  match a with
  | InitializeAuth _ => restoresNoNull st
  | _ => true
  end = true ->
  sessionComplete (state st) -> sessionComplete (state (fst (run a st))).
Proof.
  intros Hok Hinv. destruct a as [call|call|call|call|call| |]; simpl.
  - unfold AuthStore.login, signIn.
    destruct (call (storage st)) as [ls [resp|e]]; simpl.
    + intros _. split; discriminate.
    + now apply sessionComplete_failed.
  - unfold AuthStore.register, signIn.
    destruct (call (storage st)) as [ls [resp|e]]; simpl.
    + intros _. split; discriminate.
    + now apply sessionComplete_failed.
  - intros H. discriminate H.
  - unfold changePassword.
    destruct (call (storage st)) as [ls [[]|e]]; simpl.
    + exact Hinv.
    + now apply sessionComplete_failed.
  - unfold updateProfile.
    destruct (call (storage st)) as [ls [u|e]]; simpl.
    + intros H. destruct (Hinv H) as [_ Htok]. split; [discriminate|exact Htok].
    + now apply sessionComplete_failed.
  - exact Hinv.
  - unfold AuthStore.initializeAuth. unfold AuthStore.restoresNoNull in Hok.
    destruct (truthyItem _) as [ts|]; [|exact Hinv].
    destruct (truthyItem _) as [us|]; [|exact Hinv].
    destruct (parseTokens ts) as [|[t|]]; simpl; [exact Hinv| |].
    + destruct (parseUser us) as [|[u|]]; simpl; [exact Hinv| |].
      * intros _. split; discriminate.
      * discriminate Hok.
    + destruct (parseUser us) as [|u]; simpl; [exact Hinv|discriminate Hok].
Qed.

(** Along every run of actions in which each [initializeAuth] finds stored
    texts that do not parse to [null], the store stays in a state where
    being authenticated comes with a user and tokens, however the calls of
    the API settle and whatever they write to the storage. *)
Theorem session_stays_complete (acts : list Action) (st : Store) :
  sessionComplete (state st) -> restoresNoNullAlong acts st = true ->
  sessionComplete (state (runAll acts st)).
Proof.
  unfold AuthStore.runAll. revert st.
  induction acts as [|a rest IH]; intros st Hinv Hok; simpl; [exact Hinv|].
  cbn [AuthStore.restoresNoNullAlong] in Hok.
  apply Bool.andb_true_iff in Hok. destruct Hok as [Ha Hrest].
  apply IH; [|exact Hrest].
  apply sessionComplete_run; [|exact Hinv].
  destruct a; exact Ha.
Qed.

(** [initializeAuth] trusts the storage: stored texts that parse, the one
    of the tokens to [null], give an authenticated state without tokens. *)
Theorem initializeAuth_accepts_null (s : AuthState) (ls : Storage)
    (ts us : string) (u : option User) :
  getItem "ayni_tokens" ls = Some ts -> ts <> "" ->
  getItem "ayni_user" ls = Some us -> us <> "" ->
  parseTokens ts = Parsed None -> parseUser us = Parsed u ->
  isAuthenticated (state (initializeAuth (mkStore s ls))) = true
  /\ tokens (state (initializeAuth (mkStore s ls))) = None
  /\ ~ sessionComplete (state (initializeAuth (mkStore s ls))).
Proof.
  intros Hts Hnt Hus Hnu Ept Epu.
  unfold AuthStore.initializeAuth. simpl. rewrite Hts, Hus. simpl.
  rewrite (proj2 (truthy_true ts) Hnt), (proj2 (truthy_true us) Hnu), Ept, Epu.
  simpl. split; [reflexivity|]. split; [reflexivity|].
  intros H. destruct (H eq_refl) as [_ Hn]. now apply Hn.
Qed.

(** An action that rejects leaves user, tokens and authentication as they
    were, is no longer loading, and holds the message extracted from the
    error it rejects with; [logout], [clearError] and [initializeAuth]
    never reject. *)
Theorem rejected_action_keeps_session (a : Action) (st : Store) (e : Err) :
  snd (run a st) = Rejects e ->
  state (fst (run a st)) = failed (extractErrorMessage e) (state st)
  /\ (forall call, a <> Logout Err call) /\ a <> ClearError Err
  /\ a <> InitializeAuth Err.
Proof.
  destruct a as [call|call|call|call|call| |]; simpl;
    unfold AuthStore.login, AuthStore.register, signIn, changePassword,
      updateProfile;
    try discriminate;
    destruct (call (storage st)) as [ls [r|e']]; simpl; try discriminate;
    intros [= ->]; repeat split; intros; discriminate.
Qed.

(** A login that resolves leaves the session in the storage: when parsing
    gives back what was stringified, and the stringified texts are not
    empty, [initializeAuth] run on that storage from the initial state
    arrives at the very state the login left. *)
Theorem login_then_initializeAuth (call : Call AuthResponse) (st : Store)
    (ls : Storage) (response : AuthResponse) :
  call (storage st) = (ls, Resolves response) ->
  stringifyTokens (response_tokens response) <> "" ->
  stringifyUser (response_user response) <> "" ->
  parseTokens (stringifyTokens (response_tokens response))
  = Parsed (Some (response_tokens response)) ->
  parseUser (stringifyUser (response_user response))
  = Parsed (Some (response_user response)) ->
  state (fst (login call st))
  = mkState (Some (response_user response)) (Some (response_tokens response))
            true false None
  /\ state (initializeAuth
              (mkStore initialState (storage (fst (login call st)))))
     = state (fst (login call st)).
Proof.
  intros Hcall Hnt Hnu Ept Epu.
  unfold AuthStore.login, signIn. rewrite Hcall. simpl.
  split; [reflexivity|].
  unfold AuthStore.initializeAuth, getItem, setItem. simpl.
  rewrite (proj2 (truthy_true _) Hnt), (proj2 (truthy_true _) Hnu), Ept, Epu.
  reflexivity.
Qed.

(** [logout] always resolves and signs out, whatever its call of the API
    does: the state is the initial one, both items are gone from the
    storage, and [initializeAuth] restores nothing from it. *)
Theorem logout_erases_session (call : string -> Call unit) (st : Store)
    (s0 : AuthState) :
  snd (logout call st) = Resolves tt
  /\ state (fst (logout call st)) = initialState
  /\ getItem "ayni_tokens" (storage (fst (logout call st))) = None
  /\ getItem "ayni_user" (storage (fst (logout call st))) = None
  /\ initializeAuth (mkStore s0 (storage (fst (logout call st))))
     = mkStore s0 (storage (fst (logout call st))).
Proof.
  repeat split.
Qed.

End StoreProperties.

(** A login that resolves, a restore from the storage it wrote, a change
    of password that is rejected and an update of the profile, with a
    parser that reads "null" as [null]: the store ends authenticated. *)
Lemma session_stays_complete_witness :
  let tok := AuthStore.mkTokens "a" "r" in
  let usr := AuthStore.mkUser 1 "test@example.com" "testuser" true false
               "2024-01-15" None in
  let parseWith {A : Type} (text : string) (value : A) (s : string) :=
    if String.eqb s "null" then AuthStore.Parsed None
    else if String.eqb s text then AuthStore.Parsed (Some value)
    else AuthStore.SyntaxError in
  let final :=
    AuthStore.runAll string (fun e => e)
      (fun _ => "{tokens}") (fun _ => "{user}")
      (parseWith "{tokens}" tok) (parseWith "{user}" usr)
      [ AuthStore.InitializeAuth string;
        AuthStore.Login string
          (fun ls => (ls, AuthStore.Resolves (AuthStore.mkResponse usr tok)));
        AuthStore.InitializeAuth string;
        AuthStore.ChangePassword string
          (fun ls => (ls, AuthStore.Rejects "wrong password"));
        AuthStore.UpdateProfile string (fun ls => (ls, AuthStore.Resolves usr)) ]
      (AuthStore.mkStore AuthStore.initialState (fun _ => None)) in
  AuthStore.sessionComplete (AuthStore.state final)
  /\ AuthStore.isAuthenticated (AuthStore.state final) = true.
Proof.
  cbv zeta. split; [|reflexivity].
  apply session_stays_complete.
  - intros H. discriminate H.
  - vm_compute. reflexivity.
Defined.

Lemma initializeAuth_accepts_null_witness :
  AuthStore.isAuthenticated
    (AuthStore.state
       (AuthStore.initializeAuth
          (fun _ => AuthStore.Parsed None) (fun _ => AuthStore.Parsed None)
          (AuthStore.mkStore AuthStore.initialState (fun _ => Some "null"))))
  = true.
Proof.
  apply (initializeAuth_accepts_null
           (fun _ => AuthStore.Parsed None) (fun _ => AuthStore.Parsed None)
           AuthStore.initialState (fun _ => Some "null") "null" "null" None);
    first [reflexivity | discriminate].
Defined.

Lemma rejected_action_witness :
  AuthStore.state
    (fst (AuthStore.run string (fun e => e)
            (fun t => AuthStore.access t) (fun u => AuthStore.username u)
            (fun _ => AuthStore.SyntaxError) (fun _ => AuthStore.SyntaxError)
            (AuthStore.ChangePassword string
               (fun ls => (ls, AuthStore.Rejects "wrong password")))
            (AuthStore.mkStore AuthStore.initialState (fun _ => None))))
  = AuthStore.failed "wrong password" AuthStore.initialState.
Proof.
  apply (rejected_action_keeps_session string (fun e => e)
           (fun t => AuthStore.access t) (fun u => AuthStore.username u)
           (fun _ => AuthStore.SyntaxError) (fun _ => AuthStore.SyntaxError)
           (AuthStore.ChangePassword string
              (fun ls => (ls, AuthStore.Rejects "wrong password")))
           (AuthStore.mkStore AuthStore.initialState (fun _ => None))
           "wrong password").
  reflexivity.
Defined.

Lemma login_then_initializeAuth_witness :
  AuthStore.state
    (AuthStore.initializeAuth
       (fun _ => AuthStore.Parsed (Some (AuthStore.mkTokens "a" "r")))
       (fun _ => AuthStore.Parsed
                   (Some (AuthStore.mkUser 1 "test@example.com" "testuser"
                            true false "2024-01-15" None)))
       (AuthStore.mkStore AuthStore.initialState
          (AuthStore.storage
             (fst (AuthStore.login string (fun e => e)
                     (fun t => AuthStore.access t)
                     (fun u => AuthStore.username u)
                     (fun ls =>
                        (ls, AuthStore.Resolves
                               (AuthStore.mkResponse
                                  (AuthStore.mkUser 1 "test@example.com"
                                     "testuser" true false "2024-01-15" None)
                                  (AuthStore.mkTokens "a" "r"))))
                     (AuthStore.mkStore AuthStore.initialState (fun _ => None)))))))
  = AuthStore.mkState
      (Some (AuthStore.mkUser 1 "test@example.com" "testuser" true false
               "2024-01-15" None))
      (Some (AuthStore.mkTokens "a" "r")) true false None.
Proof.
  destruct (login_then_initializeAuth string (fun e => e)
              (fun t => AuthStore.access t) (fun u => AuthStore.username u)
              (fun _ => AuthStore.Parsed (Some (AuthStore.mkTokens "a" "r")))
              (fun _ => AuthStore.Parsed
                          (Some (AuthStore.mkUser 1 "test@example.com" "testuser"
                                   true false "2024-01-15" None)))
              (fun ls =>
                 (ls, AuthStore.Resolves
                        (AuthStore.mkResponse
                           (AuthStore.mkUser 1 "test@example.com"
                              "testuser" true false "2024-01-15" None)
                           (AuthStore.mkTokens "a" "r"))))
              (AuthStore.mkStore AuthStore.initialState (fun _ => None))
              (fun _ => None)
              (AuthStore.mkResponse
                 (AuthStore.mkUser 1 "test@example.com" "testuser" true false
                    "2024-01-15" None)
                 (AuthStore.mkTokens "a" "r")))
    as [Hlogin Hinit];
    [reflexivity | discriminate | discriminate | reflexivity | reflexivity | ].
  rewrite Hinit. exact Hlogin.
Defined.

(** ** Error messages of the API client *)

(** [extractErrorMessage] returns a string, except for an axios error
    whose response body is an object or an array with an array as first
    value: then it returns whatever that array starts with, [undefined] for
    an empty one. *)
Theorem extractErrorMessage_string_or_array_head (error : ApiError.Thrown) :
  (exists s, ApiError.extractErrorMessage error = ApiError.JString s)
  \/ (exists r msg items,
        error = ApiError.AxiosError (Some r) msg
        /\ ApiError.isObject (ApiError.data r) = true
        /\ ApiError.first (ApiError.values (ApiError.data r))
           = ApiError.JArray items
        /\ ApiError.extractErrorMessage error = ApiError.first items).
Proof.
  destruct error as [[r|] msg|msg|v]; simpl;
    try (left; eexists; reflexivity).
  destruct (ApiError.isObject (ApiError.data r)) eqn:Eo;
    [|left; eexists; reflexivity].
  destruct (ApiError.first (ApiError.values (ApiError.data r))) eqn:Ef;
    try (destruct (ApiError.stringAt "detail" (ApiError.data r));
         [|destruct (ApiError.stringAt "message" (ApiError.data r))];
         left; eexists; reflexivity).
  right. exists r, msg, items. repeat split; assumption.
Qed.

(** A string under the key "detail" of the response body is the message,
    unless the first value of the body is a string, which is the message
    then, or an array. *)
Theorem detail_unless_first_value (r : ApiError.Response) (msg detail : string) :
  ApiError.stringAt "detail" (ApiError.data r) = Some detail ->
  ApiError.extractErrorMessage (ApiError.AxiosError (Some r) msg)
  = ApiError.JString detail
  \/ (exists s, ApiError.first (ApiError.values (ApiError.data r))
                = ApiError.JString s
                /\ ApiError.extractErrorMessage (ApiError.AxiosError (Some r) msg)
                   = ApiError.JString s)
  \/ (exists items, ApiError.first (ApiError.values (ApiError.data r))
                    = ApiError.JArray items).
Proof.
  intros Hd. simpl.
  assert (Ho : ApiError.isObject (ApiError.data r) = true).
  { unfold ApiError.stringAt, ApiError.get in Hd.
    destruct (ApiError.data r); try discriminate Hd; reflexivity. }
  rewrite Ho, Hd.
  destruct (ApiError.first (ApiError.values (ApiError.data r))) eqn:Ef;
    try (left; reflexivity).
  - right; left. now exists s.
  - right; right. now exists items.
Qed.

Lemma detail_unless_first_value_witness :
  ApiError.extractErrorMessage
    (ApiError.AxiosError
       (Some (ApiError.mkResponse
                (ApiError.JObject
                   [("email", ApiError.JArray [ApiError.JString "Already used"]);
                    ("detail", ApiError.JString "Bad request")])
                "Bad Request"))
       "Request failed with status code 400")
  = ApiError.JString "Already used".
Proof.
  destruct (detail_unless_first_value
              (ApiError.mkResponse
                 (ApiError.JObject
                    [("email", ApiError.JArray [ApiError.JString "Already used"]);
                     ("detail", ApiError.JString "Bad request")])
                 "Bad Request")
              "Request failed with status code 400" "Bad request" eq_refl)
    as [H|[(s & H & _)|(items & _)]].
  - discriminate H.
  - discriminate H.
  - reflexivity.
Defined.

(** ** Mounting and validity; headers with an empty name *)

Section Mounting.

Lemma mappedTo_unseeded cols c :
  mappedTo (initialize cols None) c
  <-> exists col, In col cols /\ suggestMapping col = Col c.
Proof.
  rewrite initialize_unseeded. unfold mappedTo. split.
  - intros (m & Hin & Ht). apply in_map_iff in Hin.
    destruct Hin as (col & <- & Hcol). now exists col.
  - intros (col & Hcol & Hs). exists (mkMapping col (suggestMapping col)).
    split; [|exact Hs].
    now apply (in_map (fun col => mkMapping col (suggestMapping col))).
Qed.

End Mounting.

(** Mounted without a seed, the component reports a valid mapping exactly
    when every required column is the suggestion of some header; mounted
    with an empty seed it never does, whatever the headers are. *)
Theorem valid_on_mount (cols : list string) :
  (valid (validateMappings (initialize cols None)) = true
   <-> forall c, In c getRequiredColumns ->
         exists col, In col cols /\ suggestMapping col = Col c)
  /\ valid (validateMappings (initialize cols (Some []))) = false.
Proof.
  split.
  - rewrite valid_iff. split; intros H c Hc.
    + apply mappedTo_unseeded. now apply H.
    + apply mappedTo_unseeded. now apply H.
  - apply Bool.not_true_iff_false. intros Hv.
    pose proof (proj1 (valid_iff _) Hv in_dt) as Hdt.
    destruct Hdt as (m & Hin & Ht); [simpl; tauto|].
    rewrite initialize_empty_seed in Hin. apply in_map_iff in Hin.
    destruct Hin as (col & <- & _). discriminate Ht.
Qed.

Lemma valid_on_mount_witness :
  valid (validateMappings
           (initialize ["Date"; "trans_id"; "Product ID"; "qty"; "TOTAL"] None))
  = true.
Proof.
  destruct (valid_on_mount ["Date"; "trans_id"; "Product ID"; "qty"; "TOTAL"])
    as [[_ Hvalid] _].
  apply Hvalid. intros c Hc. simpl in Hc.
  destruct Hc as [<-|[<-|[<-|[<-|[<-|[]]]]]].
  - exists "Date". split; [simpl; tauto|reflexivity].
  - exists "trans_id". split; [simpl; tauto|reflexivity].
  - exists "Product ID". split; [simpl; tauto|reflexivity].
  - exists "qty". split; [simpl; tauto|reflexivity].
  - exists "TOTAL". split; [simpl; tauto|reflexivity].
Defined.

(** A system column held by a header with an empty name shows as mapped,
    but has no remove button: the button is missing exactly when the first
    entry that holds the column has the empty name, and removing is then a
    no-op that leaves the column mapped. *)
Theorem empty_header_has_no_remove_button (st : list ColumnMapping)
    (c : SystemColumn) :
  isSystemColumnMapped st c = true ->
  (removeButton st c = None
   <-> exists m, find (fun m => strictEq (systemColumn m) c) st = Some m
                 /\ csvColumn m = "")
  /\ (removeButton st c = None ->
      removeMapping st c = st /\ isSystemColumnMapped (removeMapping st c) c = true).
Proof.
  intros Hm. split.
  - unfold removeButton, getMappedCsvColumn. rewrite Hm.
    destruct (find (fun m => strictEq (systemColumn m) c) st) as [m|] eqn:E.
    + destruct (csvColumn m) as [|a r] eqn:En; simpl.
      * split; [intros _; now exists m|reflexivity].
      * split; [discriminate|]. intros (m' & [= <-] & H').
        rewrite En in H'. discriminate H'.
    + split; [|reflexivity]. intros _. exfalso.
      unfold isSystemColumnMapped in Hm. apply existsb_exists in Hm.
      destruct Hm as (m & Hin & Heq).
      rewrite (find_none _ _ E m Hin) in Heq. discriminate.
  - intros Hb. unfold removeMapping. rewrite Hb. now split.
Qed.

Lemma empty_header_witness :
  removeMapping [mkMapping "" (Col in_dt); mkMapping "qty" Null] in_dt
  = [mkMapping "" (Col in_dt); mkMapping "qty" Null].
Proof.
  destruct (empty_header_has_no_remove_button
              [mkMapping "" (Col in_dt); mkMapping "qty" Null] in_dt eq_refl)
    as [_ Hnoop].
  apply Hnoop. reflexivity.
Defined.
